(** * RedisCacheService: a shallow embedding of the cache facade

    The facade of [redis-cache.service.ts] is embedded as functions of a
    small state-and-exception monad.  The ioredis client, the JSON codec of
    the JavaScript runtime and the caller's compute function are outside
    the repository: they are parameters of the development.  A reference
    client over a finite map ([MemRedis]) instantiates them for closed
    examples. *)

From Stdlib Require Import ZArith List Lia Bool Ascii String.
From stdpp Require Import base tactics option list strings pretty gmap.

Local Open Scope Z_scope.
Local Open Scope string_scope.
Local Open Scope list_scope.

(** ** JavaScript strings *)

Module JsString.

(** [s.startsWith(p)] *)
Definition startsWith (p s : string) : bool := String.prefix p s.

(** [s.slice(n)] *)
Fixpoint slice (n : nat) (s : string) : string :=
  match n, s with
  | O, _ => s
  | S _, EmptyString => EmptyString
  | S n', String _ s' => slice n' s'
  end.

(** [s.replace(pat, '')] with a string pattern: the first occurrence of
    [pat] in [s], wherever it is, is removed; without an occurrence [s]
    is returned as it is. *)
Fixpoint replace_first (pat s : string) : string :=
  if startsWith pat s then slice (String.length pat) s
  else match s with
       | EmptyString => EmptyString
       | String c s' => String c (replace_first pat s')
       end.

(** [xs.join(sep)] *)
Fixpoint join (sep : string) (xs : list string) : string :=
  match xs with
  | [] => ""
  | [x] => x
  | x :: rest => x +:+ sep +:+ join sep rest
  end.

(** A string is truthy when it is not empty. *)
Definition truthy (s : string) : bool :=
  match s with EmptyString => false | _ => true end.

(** Line terminators (not matched by [.] in a regular expression) and
    white space (removed by [trim]) among the 8-bit code units. *)
Definition is_line_terminator (c : ascii) : bool :=
  let n := nat_of_ascii c in (n =? 10)%nat || (n =? 13)%nat.

Definition is_white (c : ascii) : bool :=
  let n := nat_of_ascii c in
  ((9 <=? n)%nat && (n <=? 13)%nat) || (n =? 32)%nat || (n =? 160)%nat.

Fixpoint trimStart (s : string) : string :=
  match s with
  | String c s' => if is_white c then trimStart s' else s
  | EmptyString => EmptyString
  end.

Fixpoint trimEnd (s : string) : string :=
  match s with
  | EmptyString => EmptyString
  | String c s' =>
      match trimEnd s' with
      | EmptyString => if is_white c then EmptyString else String c EmptyString
      | t => String c t
      end
  end.

Definition trim (s : string) : string := trimEnd (trimStart s).

(** The longest run of characters other than line terminators at the
    head of [s]: what [.+] (or [.*]) captures there. *)
Fixpoint dot_run (s : string) : string :=
  match s with
  | String c s' => if is_line_terminator c then EmptyString else String c (dot_run s')
  | EmptyString => EmptyString
  end.

(** [s.match(new RegExp(lit + ":(.+)"))] for a literal [lit] without
    regular-expression operators: capture group 1 of the leftmost match,
    [None] for no match. *)
Fixpoint match_after_colon (lit s : string) : option string :=
  let here :=
    if startsWith (lit +:+ ":") s
    then match dot_run (slice (String.length (lit +:+ ":")) s) with
         | EmptyString => None
         | cap => Some cap
         end
    else None in
  match here with
  | Some cap => Some cap
  | None => match s with
            | EmptyString => None
            | String _ s' => match_after_colon lit s'
            end
  end.

End JsString.

(** ** Errors, completions and the world *)

(** A JavaScript [Error] object. *)
Record JsError := { name : string; message : string }.

(** How a promise settles. *)
Inductive Settled (A : Type) : Type :=
| Fulfilled (a : A)
| Rejected (e : JsError).
Arguments Fulfilled {A} a.
Arguments Rejected {A} e.

(** How the evaluation of an async method ends.  [OutOfFuel] stands for an
    evaluation cut off by the step bound of the scan loop. *)
Inductive Completion (A : Type) : Type :=
| Returned (a : A)
| Thrown (e : JsError)
| OutOfFuel.
Arguments Returned {A} a.
Arguments Thrown {A} e.
Arguments OutOfFuel {A}.

(** A JavaScript number, as far as the service looks at a TTL: an integer
    (0 stands for both zeros), [NaN], or any other number (a fraction or an
    infinity) with the text a template string gives it. *)
Inductive JsNumber : Type :=
| JsInt (z : Z)
| JsNaN
| JsOther (shown : string).
Coercion JsInt : Z >-> JsNumber.

(** A number is falsy when it is a zero or [NaN]. *)
Definition number_truthy (n : JsNumber) : bool :=
  match n with
  | JsInt z => negb (z =? 0)%Z
  | JsNaN => false
  | JsOther _ => true
  end.

(** [`${n}`] *)
Definition number_text (n : JsNumber) : string :=
  match n with
  | JsInt z => pretty z
  | JsNaN => "NaN"
  | JsOther shown => shown
  end.

(** What the facade does to the outside, in order: the commands it hands
    to the client and the invocations of a caller's compute function. *)
Inductive Event : Type :=
| EvGet (key : string)
| EvSet (key value : string) (ex : option JsNumber)
| EvDel (keys : list string)
| EvScan (cursor pattern : string) (count : Z)
| EvFlushdb
| EvDbsize
| EvInfo (section : string)
| EvCompute.

Inductive Level := LvDebug | LvError.

(** A line written through the Nest [Logger]. *)
Record LogEntry := { level : Level; text : string; cause : option JsError }.

Record World (Env : Type) := mkWorld {
  env : Env;                (* the connection and the remote store *)
  trace : list Event;       (* most recent first *)
  logs : list LogEntry      (* most recent first *)
}.
Arguments mkWorld {Env} _ _ _.
Arguments env {Env} _.
Arguments trace {Env} _.
Arguments logs {Env} _.

(** ** The monad of async methods *)

Definition M (Env A : Type) : Type := World Env -> Completion A * World Env.

Section Monad.
Context {Env : Type}.

Definition ret {A} (a : A) : M Env A := fun w => (Returned a, w).

Definition bind {A B} (m : M Env A) (k : A -> M Env B) : M Env B :=
  fun w => match m w with
           | (Returned a, w') => k a w'
           | (Thrown e, w') => (Thrown e, w')
           | (OutOfFuel, w') => (OutOfFuel, w')
           end.

Definition throw {A} (e : JsError) : M Env A := fun w => (Thrown e, w).

Definition out_of_fuel {A} : M Env A := fun w => (OutOfFuel, w).

(** [try { body } catch (error) { handler error }] *)
Definition try_catch {A} (body : M Env A) (handler : JsError -> M Env A) : M Env A :=
  fun w => match body w with
           | (Thrown e, w') => handler e w'
           | r => r
           end.

Definition write_log (l : LogEntry) : M Env unit :=
  fun w => (Returned tt, mkWorld (env w) (trace w) (l :: logs w)).

(** [this.logger.debug(msg)] and [this.logger.error(msg, err)] *)
Definition logger_debug (msg : string) : M Env unit :=
  write_log {| level := LvDebug; text := msg; cause := None |}.

Definition logger_error (msg : string) (err : JsError) : M Env unit :=
  write_log {| level := LvError; text := msg; cause := Some err |}.

(** A client command: the event is recorded, the command acts on the
    connection, and the promise it returns is already settled in the
    model (commands of one connection are served in the order issued). *)
Definition issue {A} (ev : Event) (cmd : Env -> Settled A * Env) : M Env (Settled A) :=
  fun w => let '(s, e') := cmd (env w) in
           (Returned s, mkWorld e' (ev :: trace w) (logs w)).

(** [await p] *)
Definition await {A} (p : Settled A) : M Env A :=
  match p with
  | Fulfilled a => ret a
  | Rejected e => throw e
  end.

(** [p.catch(handler)] on a promise nobody awaits: the handler runs if
    the promise is rejected; the caller goes on either way. *)
Definition detach {A} (p : Settled A) (handler : JsError -> M Env unit) : M Env unit :=
  match p with
  | Fulfilled _ => ret tt
  | Rejected e => handler e
  end.

(** A synchronous call that may throw. *)
Definition lift_sync {A} (r : JsError + A) : M Env A :=
  match r with
  | inr a => ret a
  | inl e => throw e
  end.

End Monad.

Notation "'let*' x ':=' c 'in' k" := (bind c (fun x => k))
  (at level 10, x name, c at level 100, k at level 200).
Notation "c ;; k" := (bind c (fun _ => k))
  (at level 100, k at level 200, right associativity).

(** ** The collaborators *)

(** The JSON codec of the runtime.  [Value] is the type of the values a
    caller caches, [null] the JavaScript [null]; both calls may throw. *)
Class Json := {
  Value : Type;
  null : Value;
  JSON_stringify : Value -> JsError + string;
  JSON_parse : string -> JsError + Value
}.

(** The JavaScript engine, as far as a spread call [f(...xs)] depends on
    it: the largest number of arguments it passes.  A longer list makes the
    call throw a [RangeError] before [f] is entered.  (The batches the scan
    loop pushes come one SCAN reply at a time, sized by the COUNT hint of
    100, and are taken to fit.) *)
Class Engine := { max_arguments : positive }.

Definition range_error : JsError :=
  {| name := "RangeError"; message := "Maximum call stack size exceeded" |}.

(** Whether a list is too long to be spread. *)
Definition too_many `{Engine} {A} (xs : list A) : bool :=
  (Z.pos max_arguments <? Z.of_nat (length xs))%Z.

(** The part of the ioredis client the service uses.  Every command takes
    the connection to its next state and settles. *)
Record Redis (Env : Type) := {
  keyPrefix : option string;                     (* client.options.keyPrefix *)
  status : Env -> string;                        (* client.status *)
  redis_get : string -> Env -> Settled (option string) * Env;
  redis_set : string -> string -> option JsNumber -> Env -> Settled unit * Env;
  redis_del : list string -> Env -> Settled Z * Env;
  redis_scan : string -> string -> Z -> Env -> Settled (string * list string) * Env;
  redis_flushdb : Env -> Settled unit * Env;
  redis_dbsize : Env -> Settled Z * Env;
  redis_info : string -> Env -> Settled string * Env
}.
Arguments keyPrefix {Env} _.
Arguments status {Env} _ _.
Arguments redis_get {Env} _ _ _.
Arguments redis_set {Env} _ _ _ _ _.
Arguments redis_del {Env} _ _ _.
Arguments redis_scan {Env} _ _ _ _ _.
Arguments redis_flushdb {Env} _ _.
Arguments redis_dbsize {Env} _ _.
Arguments redis_info {Env} _ _ _.

(** [redis-cache.interface.ts] *)
Record CacheOperationOptions := { opt_fireAndForget : option bool }.

Record RedisCacheModuleOptions := {
  mo_ttl : option JsNumber;
  mo_fireAndForget : option bool;
  mo_debug : option bool
}.

(** The fields of a [RedisCacheService]. *)
Record RedisCacheService (Env : Type) := {
  client : Redis Env;
  defaultTtl : option JsNumber;
  fireAndForget : bool;
  debug : bool
}.
Arguments client {Env} _.
Arguments defaultTtl {Env} _.
Arguments fireAndForget {Env} _.
Arguments debug {Env} _.

(** The constructor: [options.fireAndForget || false], [options.debug || false]. *)
Definition new_RedisCacheService {Env} (c : Redis Env) (options : RedisCacheModuleOptions)
  : RedisCacheService Env :=
  {| client := c;
     defaultTtl := mo_ttl options;
     fireAndForget := default false (mo_fireAndForget options);
     debug := default false (mo_debug options) |}.

(** The same service with another facade-level default mode. *)
Definition with_fireAndForget {Env} (this : RedisCacheService Env) (b : bool)
  : RedisCacheService Env :=
  {| client := client this; defaultTtl := defaultTtl this;
     fireAndForget := b; debug := debug this |}.

(** The snapshot returned by [getStats]. *)
Record Stats := {
  connected : bool;
  keyCount : Z;
  memoryUsed : option string;
  memoryPeak : option string;
  memoryFragmentationRatio : option string;
  error : option string
}.

(** ** The service *)

Section Service.
Context {Env : Type} {J : Json} {G : Engine}.
Variable this : RedisCacheService Env.

Local Abbreviation M := (M Env).

(** The client commands as the service issues them. *)
Definition client_get (key : string) : M (Settled (option string)) :=
  issue (EvGet key) (redis_get (client this) key).
Definition client_set (key value : string) (ex : option JsNumber) : M (Settled unit) :=
  issue (EvSet key value ex) (redis_set (client this) key value ex).
Definition client_del (keys : list string) : M (Settled Z) :=
  issue (EvDel keys) (redis_del (client this) keys).
(** [this.client.del(...keys)]: the key list is spread into the call. *)
Definition client_del_spread (keys : list string) : M (Settled Z) :=
  if too_many keys then throw range_error else client_del keys.
Definition client_scan (cursor pattern : string) (count : Z)
  : M (Settled (string * list string)) :=
  issue (EvScan cursor pattern count) (redis_scan (client this) cursor pattern count).
Definition client_flushdb : M (Settled unit) :=
  issue EvFlushdb (redis_flushdb (client this)).
Definition client_dbsize : M (Settled Z) :=
  issue EvDbsize (redis_dbsize (client this)).
Definition client_info (section : string) : M (Settled string) :=
  issue (EvInfo section) (redis_info (client this) section).

(** [this.debug && this.logger.debug(msg)] *)
Definition debug_log (msg : string) : M unit :=
  if debug this then logger_debug msg else ret tt.

(** [options?.fireAndForget !== undefined ? options.fireAndForget
     : this.fireAndForget] *)
Definition useFireAndForget (options : option CacheOperationOptions) : bool :=
  match options with
  | Some {| opt_fireAndForget := Some b |} => b
  | _ => fireAndForget this
  end.

(** [get<T>(key)] *)
Definition get (key : string) : M Value :=
  try_catch
    (let* p := client_get key in
     let* value := await p in
     match value with
     | None =>
         debug_log ("GET key: " +:+ key +:+ " - MISS") ;;
         ret null
     | Some value =>
         debug_log ("GET key: " +:+ key +:+ " - HIT") ;;
         lift_sync (JSON_parse value)
     end)
    (fun error =>
       logger_error ("Error getting key " +:+ key +:+ ":") error ;;
       throw error).

(** [ttlToUse || 'none'] inside a template string *)
Definition show_ttl (ttlToUse : option JsNumber) : string :=
  match ttlToUse with
  | Some t => if number_truthy t then number_text t else "none"
  | None => "none"
  end.

(** The truthiness test [ttlToUse ? ... : ...] *)
Definition ttl_truthy (ttlToUse : option JsNumber) : bool :=
  match ttlToUse with
  | Some t => number_truthy t
  | None => false
  end.

(** [set<T>(key, value, ttl?, options?)] *)
Definition set (key : string) (value : Value) (ttl : option JsNumber)
    (options : option CacheOperationOptions) : M unit :=
  try_catch
    (let* serialized := lift_sync (JSON_stringify value) in
     let ttlToUse := match ttl with Some t => Some t | None => defaultTtl this end in
     let useFireAndForget := useFireAndForget options in
     debug_log ("SET key: " +:+ key +:+ ", ttl: " +:+ show_ttl ttlToUse +:+ "s") ;;
     let* operation :=
       if ttl_truthy ttlToUse
       then client_set key serialized ttlToUse
       else client_set key serialized None in
     if useFireAndForget
     then detach operation
            (fun err => logger_error ("Error setting key " +:+ key +:+ ":") err)
     else await operation)
    (fun error =>
       logger_error ("Error setting key " +:+ key +:+ ":") error ;;
       throw error).

(** [getOrSet<T>(key, fn, ttl?)]; [fn] is the caller's function, which
    works on the outside world and may fail. *)
Definition getOrSet (key : string) (fn : Env -> Settled Value * Env)
    (ttl : option JsNumber) : M Value :=
  try_catch
    (let* p := client_get key in
     let* value := await p in
     match value with
     | Some value =>
         debug_log ("GETORSET key: " +:+ key +:+ " - HIT") ;;
         lift_sync (JSON_parse value)
     | None =>
         debug_log ("GETORSET key: " +:+ key +:+ " - computing value") ;;
         let* r := issue EvCompute fn in
         let* result := await r in
         set key result ttl None ;;
         ret result
     end)
    (fun error =>
       logger_error ("Error in getOrSet for key " +:+ key +:+ ":") error ;;
       throw error).

(** [delKey(key, options?)] *)
Definition delKey (key : string) (options : option CacheOperationOptions) : M Z :=
  try_catch
    (let useFireAndForget := useFireAndForget options in
     debug_log ("DEL key: " +:+ key) ;;
     let* operation := client_del [key] in
     if useFireAndForget
     then
       detach operation
         (fun err => logger_error ("Error deleting key " +:+ key +:+ ":") err) ;;
       ret 0
     else
       let* result := await operation in
       debug_log ("DEL key: " +:+ key +:+ " - deleted: " +:+ pretty result) ;;
       ret result)
    (fun error =>
       logger_error ("Error deleting key " +:+ key +:+ ":") error ;;
       throw error).

(** [delKeys(keys, options?)] *)
Definition delKeys (keys : list string) (options : option CacheOperationOptions) : M Z :=
  if (length keys =? 0)%nat then ret 0
  else
    try_catch
      (let useFireAndForget := useFireAndForget options in
       debug_log ("DEL keys: [" +:+ JsString.join ", " keys +:+ "] ("
                  +:+ pretty (length keys) +:+ " keys)") ;;
       let* operation := client_del_spread keys in
       if useFireAndForget
       then
         detach operation (fun err => logger_error "Error deleting keys:" err) ;;
         ret 0
       else
         let* result := await operation in
         debug_log ("DEL keys - deleted: " +:+ pretty result) ;;
         ret result)
      (fun error =>
         logger_error "Error deleting keys:" error ;;
         throw error).

(** [keys.map(key => key.replace(keyPrefix, ''))] when the prefix is
    truthy, [keys] otherwise. *)
Definition keysWithoutPrefix (keyPrefix : string) (keys : list string) : list string :=
  if JsString.truthy keyPrefix
  then map (fun key => JsString.replace_first keyPrefix key) keys
  else keys.

(** The [do { ... } while (cursor !== '0')] loop that [delPattern] and
    [getKeysByPattern] both contain; [fuel] bounds the number of rounds. *)
Fixpoint scanLoop (fuel : nat) (keyPrefix fullPattern cursor : string)
    (allKeys : list string) : M (list string) :=
  match fuel with
  | O => out_of_fuel
  | S fuel' =>
      let* p := client_scan cursor fullPattern 100 in
      let* result := await p in
      let cursor := fst result in
      let keys := snd result in
      let allKeys :=
        if (0 <? length keys)%nat
        then (allKeys ++ keysWithoutPrefix keyPrefix keys)%list
        else allKeys in
      if negb (String.eqb cursor "0")
      then scanLoop fuel' keyPrefix fullPattern cursor allKeys
      else ret allKeys
  end.

(** [delPattern(pattern)] *)
Definition delPattern (fuel : nat) (pattern : string) : M Z :=
  try_catch
    (let keyPrefix := default "" (keyPrefix (client this)) in
     let fullPattern := keyPrefix +:+ pattern in
     let* allKeys := scanLoop fuel keyPrefix fullPattern "0" [] in
     if (length allKeys =? 0)%nat
     then
       debug_log ("DEL pattern: " +:+ pattern +:+ " - no keys found") ;;
       ret 0
     else
       let* operation := client_del_spread allKeys in
       let* totalDeleted :=
         if fireAndForget this
         then
           detach operation
             (fun err => logger_error ("Error deleting pattern " +:+ pattern +:+ ":") err) ;;
           ret 0
         else await operation in
       debug_log ("DEL pattern: " +:+ pattern +:+ " - deleted "
                  +:+ pretty totalDeleted +:+ " keys") ;;
       ret totalDeleted)
    (fun error =>
       logger_error ("Error deleting pattern " +:+ pattern +:+ ":") error ;;
       throw error).

(** The [for (const pattern of patterns)] loop of [delPatterns]. *)
Fixpoint delPatterns_loop (fuel : nat) (patterns : list string) (totalDeleted : Z) : M Z :=
  match patterns with
  | [] => ret totalDeleted
  | pattern :: rest =>
      let* deleted := delPattern fuel pattern in
      delPatterns_loop fuel rest (totalDeleted + deleted)
  end.

(** [delPatterns(patterns)] *)
Definition delPatterns (fuel : nat) (patterns : list string) : M Z :=
  if (length patterns =? 0)%nat then ret 0
  else
    try_catch
      (debug_log ("DEL patterns: [" +:+ JsString.join ", " patterns +:+ "]") ;;
       let* totalDeleted := delPatterns_loop fuel patterns 0 in
       debug_log ("DEL patterns - total deleted: " +:+ pretty totalDeleted) ;;
       ret totalDeleted)
      (fun error =>
         logger_error "Error deleting patterns:" error ;;
         throw error).

(** [getKeysByPattern(pattern)] *)
Definition getKeysByPattern (fuel : nat) (pattern : string) : M (list string) :=
  try_catch
    (let keyPrefix := default "" (keyPrefix (client this)) in
     let fullPattern := keyPrefix +:+ pattern in
     let* allKeys := scanLoop fuel keyPrefix fullPattern "0" [] in
     debug_log ("GET keys by pattern: " +:+ pattern +:+ " - found "
                +:+ pretty (length allKeys) +:+ " keys") ;;
     ret allKeys)
    (fun error =>
       logger_error ("Error getting keys by pattern " +:+ pattern +:+ ":") error ;;
       throw error).

(** [reset(options?)] *)
Definition reset (options : option CacheOperationOptions) : M unit :=
  try_catch
    (let useFireAndForget := useFireAndForget options in
     debug_log "RESET - clearing all cache" ;;
     let* operation := client_flushdb in
     (if useFireAndForget
      then detach operation (fun err => logger_error "Error resetting cache:" err)
      else await operation) ;;
     debug_log "RESET - cache cleared")
    (fun error =>
       logger_error "Error resetting cache:" error ;;
       throw error).

(** [parseMemoryInfo(info, key)]: [info.match(new RegExp(`${key}:(.+)`))],
    then [match[1].trim()].  The key becomes part of the regular
    expression; the embedding is that of the method on keys without
    regular-expression operators, which match as they are written.  The
    three keys the service calls it with are made of letters and
    underscores. *)
Definition parseMemoryInfo (info key : string) : option string :=
  match JsString.match_after_colon key info with
  | Some m1 => Some (JsString.trim m1)
  | None => None
  end.

(** [getStats()] *)
Definition getStats : M Stats :=
  try_catch
    (fun w =>
       let connected := String.eqb (status (client this) (env w)) "ready" in
       (if negb connected
        then ret {| connected := false; keyCount := 0;
                    memoryUsed := None; memoryPeak := None;
                    memoryFragmentationRatio := None;
                    error := Some "Redis not connected" |}
        else
          let* p := client_dbsize in
          let* keyCount := await p in
          let* q := client_info "memory" in
          let* memoryInfo := await q in
          let memoryUsed := parseMemoryInfo memoryInfo "used_memory_human" in
          let memoryPeak := parseMemoryInfo memoryInfo "used_memory_peak_human" in
          let memoryFragmentationRatio :=
            parseMemoryInfo memoryInfo "mem_fragmentation_ratio" in
          debug_log ("STATS - keys: " +:+ pretty keyCount +:+ ", memory: "
                     +:+ default "undefined" memoryUsed) ;;
          ret {| connected := connected; keyCount := keyCount;
                 memoryUsed := memoryUsed; memoryPeak := memoryPeak;
                 memoryFragmentationRatio := memoryFragmentationRatio;
                 error := None |}) w)
    (fun error =>
       logger_error "Error getting cache stats:" error ;;
       ret {| connected := false; keyCount := 0;
              memoryUsed := None; memoryPeak := None;
              memoryFragmentationRatio := None;
              error := Some (message error) |}).

End Service.

(** Two engines for closed examples: one that spreads a hundred thousand
    arguments, and one that spreads two. *)
Module Engines.

Definition roomy : Engine := {| max_arguments := 100000 |}.
Definition tight : Engine := {| max_arguments := 2 |}.

End Engines.

(** ** A reference client

    [MemRedis] is a small in-memory stand-in for an ioredis client talking
    to a Redis server, with the standard meaning of the seven commands the
    service uses.  It is not part of the repository; closed examples run
    the service against it. *)

Module MemRedis.

(** The server side: the key space under its physical keys, whether the
    server is a read-only replica, and how many more commands the
    connection serves before it goes down ([None]: it stays up). *)
Record Mem := {
  cells : gmap string string;
  readonly : bool;
  fuse : option nat
}.

(** The client side: the configured key prefix, the number of keys the
    server visits in one SCAN round, and the text INFO answers with. *)
Record Config := {
  cfg_prefix : option string;
  cfg_page : nat;
  cfg_info : string
}.

Definition closed : JsError := {| name := "Error"; message := "Connection is closed." |}.
Definition bad_expire : JsError :=
  {| name := "ReplyError"; message := "ERR invalid expire time in 'set' command" |}.
Definition not_an_integer : JsError :=
  {| name := "ReplyError"; message := "ERR value is not an integer or out of range" |}.
Definition read_only : JsError :=
  {| name := "ReplyError";
     message := "READONLY You can't write against a read only replica." |}.
Definition bad_cursor : JsError :=
  {| name := "ReplyError"; message := "ERR invalid cursor" |}.

Definition is_down (m : Mem) : bool :=
  match fuse m with Some O => true | _ => false end.

Definition burn (m : Mem) : Mem :=
  {| cells := cells m; readonly := readonly m;
     fuse := match fuse m with Some (S n) => Some n | f => f end |}.

(** Every command goes through the connection: rejected when it is down,
    served (and counted) otherwise. *)
Definition served {A} (run : gmap string string -> Settled A * gmap string string)
    (m : Mem) : Settled A * Mem :=
  if is_down m then (Rejected closed, m)
  else let '(r, c) := run (cells m) in
       (r, burn {| cells := c; readonly := readonly m; fuse := fuse m |}).

(** A command that writes: a read-only replica refuses it. *)
Definition written {A} (run : gmap string string -> Settled A * gmap string string)
    (m : Mem) : Settled A * Mem :=
  served (fun c => if readonly m then (Rejected read_only, c) else run c) m.

(** Glob matching of MATCH: [*] any run, [?] any one character, anything
    else itself (character classes and escapes are left out). *)
Fixpoint glob (p s : string) : bool :=
  match p with
  | EmptyString => match s with EmptyString => true | _ => false end
  | String c p' =>
      if Ascii.eqb c "*" then
        (fix star (s : string) : bool :=
           glob p' s || match s with
                        | EmptyString => false
                        | String _ s' => star s'
                        end) s
      else match s with
           | EmptyString => false
           | String d s' => (Ascii.eqb c "?" || Ascii.eqb c d) && glob p' s'
           end
  end.

(** A cursor is the decimal position in the server's key order. *)
Fixpoint parse_digits (acc : nat) (s : string) : option nat :=
  match s with
  | EmptyString => Some acc
  | String c s' =>
      let n := nat_of_ascii c in
      if ((48 <=? n) && (n <=? 57))%nat
      then parse_digits (10 * acc + (n - 48))%nat s'
      else None
  end.

Definition parse_cursor (s : string) : option nat :=
  match s with
  | EmptyString => None
  | _ => parse_digits 0 s
  end.

Definition physical (cfg : Config) (key : string) : string :=
  default "" (cfg_prefix cfg) +:+ key.

Definition run_get (cfg : Config) (key : string) (c : gmap string string)
  : Settled (option string) * gmap string string :=
  (Fulfilled (c !! physical cfg key), c).

Definition run_set (cfg : Config) (key value : string) (ex : option JsNumber)
    (c : gmap string string) : Settled unit * gmap string string :=
  match ex with
  | Some (JsInt t) => if (t <=? 0)%Z then (Rejected bad_expire, c)
                      else (Fulfilled tt, <[physical cfg key := value]> c)
  | Some _ => (Rejected not_an_integer, c)
  | None => (Fulfilled tt, <[physical cfg key := value]> c)
  end.

Fixpoint del_all (keys : list string) (c : gmap string string) : Z * gmap string string :=
  match keys with
  | [] => (0, c)
  | k :: rest =>
      match c !! k with
      | Some _ => let '(n, c') := del_all rest (delete k c) in (1 + n, c')
      | None => del_all rest c
      end
  end.

Definition run_del (cfg : Config) (keys : list string) (c : gmap string string)
  : Settled Z * gmap string string :=
  let '(n, c') := del_all (map (physical cfg) keys) c in (Fulfilled n, c').

(** SCAN gets the pattern as it is: the client adds no prefix to it. *)
Definition run_scan (cfg : Config) (cursor pattern : string) (count : Z)
    (c : gmap string string) : Settled (string * list string) * gmap string string :=
  match parse_cursor cursor with
  | None => (Rejected bad_cursor, c)
  | Some pos =>
      let all := (map_to_list c).*1 in
      let step := Nat.max 1 (Nat.min (cfg_page cfg) (Z.to_nat count)) in
      let batch := filter (fun k => Is_true (glob pattern k)) (take step (drop pos all)) in
      let next := if (length all <=? pos + step)%nat then "0" else pretty (pos + step)%nat in
      (Fulfilled (next, batch), c)
  end.

Definition run_flushdb (c : gmap string string) : Settled unit * gmap string string :=
  (Fulfilled tt, empty).

Definition run_dbsize (c : gmap string string) : Settled Z * gmap string string :=
  (Fulfilled (Z.of_nat (size c)), c).

Definition run_info (cfg : Config) (section : string) (c : gmap string string)
  : Settled string * gmap string string :=
  (Fulfilled (cfg_info cfg), c).

Definition redis (cfg : Config) : Redis Mem :=
  {| keyPrefix := cfg_prefix cfg;
     status := fun m => if is_down m then "end" else "ready";
     redis_get := fun key => served (run_get cfg key);
     redis_set := fun key value ex => written (run_set cfg key value ex);
     redis_del := fun keys => written (run_del cfg keys);
     redis_scan := fun cursor pattern count => served (run_scan cfg cursor pattern count);
     redis_flushdb := written run_flushdb;
     redis_dbsize := served run_dbsize;
     redis_info := fun section => served (run_info cfg section) |}.

(** A world around a key space, with nothing issued or logged yet. *)
Definition boot (kvs : list (string * string)) (ro : bool) (f : option nat) : World Mem :=
  mkWorld {| cells := list_to_map kvs; readonly := ro; fuse := f |} [] [].

End MemRedis.

(** A codec for closed examples: [null], the booleans and the integers. *)
Module MiniJson.

Inductive jvalue := JNull | JBool (b : bool) | JNum (n : Z).

Definition syntax_error : JsError :=
  {| name := "SyntaxError"; message := "Unexpected token in JSON" |}.

Definition stringify (v : jvalue) : JsError + string :=
  inr match v with
      | JNull => "null"
      | JBool true => "true"
      | JBool false => "false"
      | JNum n => pretty n
      end.

Definition parse (s : string) : JsError + jvalue :=
  if String.eqb s "null" then inr JNull
  else if String.eqb s "true" then inr (JBool true)
  else if String.eqb s "false" then inr (JBool false)
  else match s with
       | String "-" d =>
           match MemRedis.parse_cursor d with
           | Some n => inr (JNum (- Z.of_nat n))
           | None => inl syntax_error
           end
       | _ =>
           match MemRedis.parse_cursor s with
           | Some n => inr (JNum (Z.of_nat n))
           | None => inl syntax_error
           end
       end.

#[export] Instance json : Json :=
  {| Value := jvalue; null := JNull; JSON_stringify := stringify; JSON_parse := parse |}.

End MiniJson.



(** A client whose connection reports ready and then fails every command:
    the link broke after the last status change was seen. *)
Module Flaky.

Definition reset_by_peer : JsError := {| name := "Error"; message := "read ECONNRESET" |}.

Definition redis : Redis unit :=
  {| keyPrefix := None;
     status := fun _ => "ready";
     redis_get := fun _ u => (Rejected reset_by_peer, u);
     redis_set := fun _ _ _ u => (Rejected reset_by_peer, u);
     redis_del := fun _ u => (Rejected reset_by_peer, u);
     redis_scan := fun _ _ _ u => (Rejected reset_by_peer, u);
     redis_flushdb := fun u => (Rejected reset_by_peer, u);
     redis_dbsize := fun u => (Rejected reset_by_peer, u);
     redis_info := fun _ u => (Rejected reset_by_peer, u) |}.

Definition svc : RedisCacheService unit :=
  new_RedisCacheService redis
    {| mo_ttl := None; mo_fireAndForget := None; mo_debug := None |}.

Definition w : World unit := mkWorld tt [] [].

End Flaky.

(** ** Vocabulary of the statements *)

(** What the promise of a command means to a caller who awaits it. *)
Definition awaited {A} (p : Settled A) : Completion A :=
  match p with
  | Fulfilled a => Returned a
  | Rejected e => Thrown e
  end.

Definition error_line (msg : string) (e : JsError) : LogEntry :=
  {| level := LvError; text := msg; cause := Some e |}.

(** What a rejected command leaves in the log. *)
Definition rejection_line {A} (msg : string) (p : Settled A) : list LogEntry :=
  match p with
  | Fulfilled _ => []
  | Rejected e => [error_line msg e]
  end.

(** The snapshot of [getStats] for a failure with the given message. *)
Definition failed_snapshot (msg : string) : Stats :=
  {| connected := false; keyCount := 0;
     memoryUsed := None; memoryPeak := None; memoryFragmentationRatio := None;
     error := Some msg |}.

(** How many events are invocations of the compute function. *)
Fixpoint computes (tr : list Event) : nat :=
  match tr with
  | [] => O
  | EvCompute :: rest => S (computes rest)
  | _ :: rest => computes rest
  end.

(** The SCAN commands behind [pages], in the order issued. *)
Fixpoint scan_calls (fullPattern cursor : string) (pages : list (string * list string))
  : list Event :=
  match pages with
  | [] => []
  | (next, _) :: rest => EvScan cursor fullPattern 100 :: scan_calls fullPattern next rest
  end.

(** The keys of all pages, stripped, in page order. *)
Fixpoint gathered (keyPrefix : string) (pages : list (string * list string)) : list string :=
  match pages with
  | [] => []
  | (_, keys) :: rest => keysWithoutPrefix keyPrefix keys ++ gathered keyPrefix rest
  end.

(** [Scans c fullPattern e cursor pages e'] : from connection state [e],
    the successive SCAN calls for [fullPattern], the first at [cursor] and
    each next one at the cursor just returned, are answered with [pages];
    all of them but the last carry a cursor other than ["0"], the last
    carries ["0"] and leaves the connection in state [e']. *)
Inductive Scans {Env : Type} (c : Redis Env) (fullPattern : string)
  : Env -> string -> list (string * list string) -> Env -> Prop :=
| Scans_last (e : Env) (cursor : string) (keys : list string) (e' : Env) :
    redis_scan c cursor fullPattern 100 e = (Fulfilled ("0", keys), e') ->
    Scans c fullPattern e cursor [("0", keys)] e'
| Scans_next (e : Env) (cursor next : string) (keys : list string) (e1 : Env)
    (pages : list (string * list string)) (e' : Env) :
    redis_scan c cursor fullPattern 100 e = (Fulfilled (next, keys), e1) ->
    next <> "0" ->
    Scans c fullPattern e1 next pages e' ->
    Scans c fullPattern e cursor ((next, keys) :: pages) e'.

Section Vocabulary.
Context {Env : Type} {J : Json}.
Variable this : RedisCacheService Env.

(** The debug line of a method, present when debugging is on. *)
Definition debug_line (msg : string) : list LogEntry :=
  if debug this then [{| level := LvDebug; text := msg; cause := None |}] else [].

(** The expiry [set] passes to SET for a per-call [ttl]: the call's TTL,
    else the default one, and none when that is absent or zero. *)
Definition expiry (ttl : option JsNumber) : option JsNumber :=
  let ttlToUse := match ttl with Some t => Some t | None => defaultTtl this end in
  if ttl_truthy ttlToUse then ttlToUse else None.

Definition set_debug_line (key : string) (ttl : option JsNumber) : list LogEntry :=
  debug_line
    ("SET key: " +:+ key +:+ ", ttl: "
     +:+ show_ttl (match ttl with Some t => Some t | None => defaultTtl this end) +:+ "s").

(** [v'] is what decoding the encoding of [v] gives. *)
Definition decode_equal (v v' : Value) : Prop :=
  exists s, JSON_stringify v = inr s /\ JSON_parse s = inr v'.

(** The round trip as the specification words it: once [set] returned,
    [get] returns a value decode-equal to the one set. *)
Definition round_trip (key : string) (value : Value) (ttl : option JsNumber)
    (options : option CacheOperationOptions) (w : World Env) : Prop :=
  forall w1, set this key value ttl options w = (Returned tt, w1) ->
    exists v', fst (get this key w1) = Returned v' /\ decode_equal value v'.

(** The world in which the loop of [delPatterns] starts: the debug line
    has been written. *)
Definition delPatterns_entry (patterns : list string) (w : World Env) : World Env :=
  snd (debug_log this ("DEL patterns: [" +:+ JsString.join ", " patterns +:+ "]") w).

End Vocabulary.

(** ** Vocabulary of the further properties *)

(** The characters that are operators in a regular expression. *)
Definition is_regex_operator (c : ascii) : bool :=
  existsb (Ascii.eqb c)
    ["^"; "$"; "092"; "."; "*"; "+"; "?"; "("; ")"; "["; "]"; "{"; "}"; "|"]%char.

(** A string that, spliced into a regular expression, matches itself and
    nothing else: it has no operator in it. *)
Fixpoint regex_literal (s : string) : bool :=
  match s with
  | EmptyString => true
  | String c rest => negb (is_regex_operator c) && regex_literal rest
  end.

(** A SCAN for [fullPattern] with the count hint 100. *)
Definition is_scan_of (fullPattern : string) (ev : Event) : bool :=
  match ev with
  | EvScan _ pattern count => String.eqb pattern fullPattern && (count =? 100)%Z
  | _ => false
  end.

(** The cursor the next SCAN would be sent with after [pages]. *)
Fixpoint last_cursor (cursor : string) (pages : list (string * list string)) : string :=
  match pages with
  | [] => cursor
  | (next, _) :: rest => last_cursor next rest
  end.

(** [ScanFails c fullPattern e cursor pages err e'] : the successive SCAN
    calls from [cursor] are answered with [pages], none of which carries
    the cursor ["0"], and the call after them is rejected with [err],
    leaving the connection in state [e']. *)
Inductive ScanFails {Env : Type} (c : Redis Env) (fullPattern : string)
  : Env -> string -> list (string * list string) -> JsError -> Env -> Prop :=
| ScanFails_now (e : Env) (cursor : string) (err : JsError) (e' : Env) :
    redis_scan c cursor fullPattern 100 e = (Rejected err, e') ->
    ScanFails c fullPattern e cursor [] err e'
| ScanFails_later (e : Env) (cursor next : string) (keys : list string) (e1 : Env)
    (pages : list (string * list string)) (err : JsError) (e' : Env) :
    redis_scan c cursor fullPattern 100 e = (Fulfilled (next, keys), e1) ->
    next <> "0" ->
    ScanFails c fullPattern e1 next pages err e' ->
    ScanFails c fullPattern e cursor ((next, keys) :: pages) err e'.

(** Pages as the store returns them when every key carries the prefix. *)
Definition prefixed (keyPrefix : string) (bare : list (string * list string))
  : list (string * list string) :=
  map (fun pg => (fst pg, map (String.append keyPrefix) (snd pg))) bare.

(** The bare keys of all pages, in page order. *)
Definition bare_keys (bare : list (string * list string)) : list string :=
  concat (map snd bare).


(** ** Worlds for closed examples *)

Module PrefixExample.

(** A client configured with the prefix [*:] and a key space in which one
    key carries the prefix and another only contains it. *)
Definition cfg : MemRedis.Config :=
  {| MemRedis.cfg_prefix := Some "*:"; MemRedis.cfg_page := 10; MemRedis.cfg_info := "" |}.

Definition svc : RedisCacheService MemRedis.Mem :=
  new_RedisCacheService (MemRedis.redis cfg)
    {| mo_ttl := None; mo_fireAndForget := None; mo_debug := None |}.

Definition w : World MemRedis.Mem :=
  MemRedis.boot [("*:user:1", "1"); ("x*:user:1", "2")] false None.

End PrefixExample.

Module ReadExample.

Definition cfg : MemRedis.Config :=
  {| MemRedis.cfg_prefix := Some "app:"; MemRedis.cfg_page := 2;
     MemRedis.cfg_info := "" |}.

Definition svc : RedisCacheService MemRedis.Mem :=
  new_RedisCacheService (MemRedis.redis cfg)
    {| mo_ttl := None; mo_fireAndForget := None; mo_debug := Some true |}.

(** [app:torn] holds a payload cut short. *)
Definition w : World MemRedis.Mem :=
  MemRedis.boot [("app:n", "42"); ("app:torn", "tru")] false None.

End ReadExample.

Module StatsExample.

Definition svc : RedisCacheService MemRedis.Mem := ReadExample.svc.

(** A connection that is down, and one that serves one more command. *)
Definition w_down : World MemRedis.Mem := MemRedis.boot [("app:n", "42")] false (Some 0%nat).
Definition w_last : World MemRedis.Mem := MemRedis.boot [("app:n", "42")] false (Some 1%nat).

End StatsExample.

Module WriteExample.

Definition cfg : MemRedis.Config := ReadExample.cfg.

(** A facade whose default is blocking, and one whose default is
    fire-and-forget. *)
Definition blocking : RedisCacheService MemRedis.Mem :=
  new_RedisCacheService (MemRedis.redis cfg)
    {| mo_ttl := None; mo_fireAndForget := None; mo_debug := None |}.

Definition detached : RedisCacheService MemRedis.Mem :=
  new_RedisCacheService (MemRedis.redis cfg)
    {| mo_ttl := None; mo_fireAndForget := Some true; mo_debug := None |}.

(** A healthy primary and a read-only replica, both empty. *)
Definition primary : World MemRedis.Mem := MemRedis.boot [] false None.
Definition replica : World MemRedis.Mem := MemRedis.boot [] true None.
Definition holding : World MemRedis.Mem := MemRedis.boot [("app:n", "42")] false None.

(** A compute function that yields 7, and one that fails. *)
Definition seven (m : MemRedis.Mem) : Settled MiniJson.jvalue * MemRedis.Mem :=
  (Fulfilled (MiniJson.JNum 7), m).
Definition boom : JsError := {| name := "Error"; message := "upstream unavailable" |}.
Definition failing (m : MemRedis.Mem) : Settled MiniJson.jvalue * MemRedis.Mem :=
  (Rejected boom, m).

End WriteExample.

Module ScanExample.

(** The server visits one key per SCAN round; its key order puts the
    session key first. *)
Definition cfg : MemRedis.Config :=
  {| MemRedis.cfg_prefix := Some "app:"; MemRedis.cfg_page := 1; MemRedis.cfg_info := "" |}.

Definition blocking : RedisCacheService MemRedis.Mem :=
  new_RedisCacheService (MemRedis.redis cfg)
    {| mo_ttl := None; mo_fireAndForget := None; mo_debug := None |}.

Definition detached : RedisCacheService MemRedis.Mem :=
  new_RedisCacheService (MemRedis.redis cfg)
    {| mo_ttl := None; mo_fireAndForget := Some true; mo_debug := None |}.

Definition w : World MemRedis.Mem :=
  MemRedis.boot [("app:user:1", "1"); ("app:session:9", "true"); ("app:user:2", "2")]
    false None.

(** The three pages SCAN answers with for [app:user:*]: the first is empty
    and carries the cursor ["1"]. *)
Definition pages : list (string * list string) :=
  [("1", []); ("2", ["app:user:1"]); ("0", ["app:user:2"])].

Definition no_pages : list (string * list string) :=
  [("1", []); ("2", []); ("0", [])].

End ScanExample.

Module OverflowExample.

(** Three user keys, which the server returns in one SCAN round. *)
Definition cfg : MemRedis.Config :=
  {| MemRedis.cfg_prefix := Some "app:"; MemRedis.cfg_page := 10; MemRedis.cfg_info := "" |}.

Definition blocking : RedisCacheService MemRedis.Mem :=
  new_RedisCacheService (MemRedis.redis cfg)
    {| mo_ttl := None; mo_fireAndForget := None; mo_debug := None |}.

Definition detached : RedisCacheService MemRedis.Mem :=
  new_RedisCacheService (MemRedis.redis cfg)
    {| mo_ttl := None; mo_fireAndForget := Some true; mo_debug := None |}.

Definition w : World MemRedis.Mem :=
  MemRedis.boot [("app:user:1", "1"); ("app:user:2", "2"); ("app:user:3", "3")] false None.

End OverflowExample.

Module SweepExample.

(** The connection serves two commands and then goes down. *)
Definition w : World MemRedis.Mem :=
  MemRedis.boot [("app:a:1", "1"); ("app:b:1", "true")] false (Some 2%nat).

Definition svc : RedisCacheService MemRedis.Mem := WriteExample.blocking.

End SweepExample.

Module AbortExample.

(** One key is visited per SCAN round and the connection serves a single
    command. *)
Definition svc : RedisCacheService MemRedis.Mem :=
  new_RedisCacheService
    (MemRedis.redis {| MemRedis.cfg_prefix := Some "app:"; MemRedis.cfg_page := 1;
                       MemRedis.cfg_info := "" |})
    {| mo_ttl := None; mo_fireAndForget := None; mo_debug := None |}.

Definition w : World MemRedis.Mem :=
  MemRedis.boot [("app:user:1", "1"); ("app:session:9", "true"); ("app:user:2", "2")]
    false (Some 1%nat).

End AbortExample.

Module TtlExample.

(** A service with a default TTL of one minute. *)
Definition svc : RedisCacheService MemRedis.Mem :=
  new_RedisCacheService (MemRedis.redis ReadExample.cfg)
    {| mo_ttl := Some (JsInt 60); mo_fireAndForget := None; mo_debug := None |}.

End TtlExample.

(** [Sweeps this fuel patterns w counts w'] : [delPattern], run on the
    patterns one after the other from world [w], returns [counts] and ends
    in world [w']. *)
Inductive Sweeps {Env : Type} {G : Engine} (this : RedisCacheService Env) (fuel : nat)
  : list string -> World Env -> list Z -> World Env -> Prop :=
| Sweeps_nil (w : World Env) : Sweeps this fuel [] w [] w
| Sweeps_cons (pattern : string) (rest : list string) (w w1 w2 : World Env)
    (deleted : Z) (counts : list Z) :
    delPattern this fuel pattern w = (Returned deleted, w1) ->
    Sweeps this fuel rest w1 counts w2 ->
    Sweeps this fuel (pattern :: rest) w (deleted :: counts) w2.

(** The sum of a list of counts. *)
Fixpoint total (counts : list Z) : Z :=
  match counts with
  | [] => 0
  | n :: rest => n + total rest
  end.

(** A codec with a value [JSON.stringify] rejects: a BigInt. *)
Module BigJson.

Inductive jvalue := JBig (n : Z) | JPlain (v : MiniJson.jvalue).

Definition type_error : JsError :=
  {| name := "TypeError"; message := "Do not know how to serialize a BigInt" |}.

Definition stringify (v : jvalue) : JsError + string :=
  match v with
  | JBig _ => inl type_error
  | JPlain v => MiniJson.stringify v
  end.

Definition parse (s : string) : JsError + jvalue :=
  match MiniJson.parse s with
  | inl e => inl e
  | inr v => inr (JPlain v)
  end.

Definition json : Json :=
  {| Value := jvalue; null := JPlain MiniJson.JNull;
     JSON_stringify := stringify; JSON_parse := parse |}.

Definition big (m : MemRedis.Mem) : Settled jvalue * MemRedis.Mem :=
  (Fulfilled (JBig 7), m).

End BigJson.

Module SumExample.

Definition svc : RedisCacheService MemRedis.Mem := WriteExample.blocking.

Definition w : World MemRedis.Mem :=
  MemRedis.boot [("app:a:1", "1"); ("app:a:2", "2"); ("app:b:1", "true")] false None.

End SumExample.

(** ** The module ([redis-cache.module.ts])

    What [forRoot] and [forRootAsync] hand to the Nest container.  Class
    references, user factories, imported modules and injection tokens are
    opaque to the module: they are type parameters. *)

Module RedisCacheModule.

Section Wiring.
Variables Class Factory Import Dep : Type.

(** [RedisCacheModuleOptions] with its [isGlobal] field. *)
Record RootOptions := {
  root_options : RedisCacheModuleOptions;
  root_isGlobal : option bool
}.

(** [RedisCacheModuleAsyncOptions] *)
Record AsyncOptions := {
  imports : option (list Import);
  useExisting : option Class;
  useClass : option Class;
  useFactory : option Factory;
  inject : option (list Dep);
  isGlobal : option bool
}.

(** The factory of an options provider: the user's, or the module's own
    [optionsFactory => optionsFactory.createRedisCacheOptions()]. *)
Inductive OptionsFactory :=
| UserFactory (f : Factory)
| CreateRedisCacheOptions.

(** An entry of an [inject] array: a user token, or a class reference
    ([None] where the code passes an undefined [useClass]). *)
Inductive InjectToken :=
| DepToken (d : Dep)
| ClassToken (c : option Class).

(** A provider: one of the two that provide [REDIS_CACHE_OPTIONS], a class
    provider, or the [RedisCacheService] class itself. *)
Inductive Provider :=
| OptionsValue (useValue : RootOptions)
| OptionsFactoryProvider (factory : OptionsFactory) (injected : list InjectToken)
| ClassProvider (provide useClass : option Class)
| Service.

Record DynamicModule := {
  global : bool;
  module_imports : list Import;
  providers : list Provider;
  exports : list Provider
}.

(** [options.isGlobal !== undefined ? options.isGlobal : true] *)
Definition resolve_isGlobal (isGlobal : option bool) : bool :=
  match isGlobal with
  | Some b => b
  | None => true
  end.

(** A reference is truthy when it is defined. *)
Definition defined {A} (o : option A) : bool :=
  match o with
  | Some _ => true
  | None => false
  end.

(** [a || b] on two optional references *)
Definition or_else {A} (a b : option A) : option A :=
  match a with
  | Some x => Some x
  | None => b
  end.

(** [forRoot(options)] *)
Definition forRoot (options : RootOptions) : DynamicModule :=
  let isGlobal := resolve_isGlobal (root_isGlobal options) in
  {| global := isGlobal;
     module_imports := [];
     providers := [OptionsValue options; Service];
     exports := [Service] |}.

(** [createAsyncOptionsProvider(options)] *)
Definition createAsyncOptionsProvider (options : AsyncOptions) : Provider :=
  match useFactory options with
  | Some f =>
      OptionsFactoryProvider (UserFactory f)
        (map DepToken (default [] (inject options)))
  | None =>
      OptionsFactoryProvider CreateRedisCacheOptions
        [ClassToken (or_else (useExisting options) (useClass options))]
  end.

(** [createAsyncProviders(options)] *)
Definition createAsyncProviders (options : AsyncOptions) : list Provider :=
  if defined (useExisting options) || defined (useFactory options)
  then [createAsyncOptionsProvider options]
  else [createAsyncOptionsProvider options;
        ClassProvider (useClass options) (useClass options)].

(** [forRootAsync(options)] *)
Definition forRootAsync (options : AsyncOptions) : DynamicModule :=
  let isGlobal := resolve_isGlobal (isGlobal options) in
  {| global := isGlobal;
     module_imports := default [] (imports options);
     providers := createAsyncProviders options ++ [Service];
     exports := [Service] |}.

(** Whether a provider provides the options token. *)
Definition provides_options (p : Provider) : bool :=
  match p with
  | OptionsValue _ | OptionsFactoryProvider _ _ => true
  | _ => false
  end.

(** How many providers of a list satisfy a test. *)
Fixpoint how_many (test : Provider -> bool) (ps : list Provider) : nat :=
  match ps with
  | [] => O
  | p :: rest => (if test p then 1 else 0) + how_many test rest
  end.

Definition is_service (p : Provider) : bool :=
  match p with
  | Service => true
  | _ => false
  end.

End Wiring.

Arguments OptionsValue {Class Factory Dep} _.
Arguments OptionsFactoryProvider {Class Factory Dep} _ _.
Arguments ClassProvider {Class Factory Dep} _ _.
Arguments Service {Class Factory Dep}.
Arguments UserFactory {Factory} _.
Arguments CreateRedisCacheOptions {Factory}.
Arguments DepToken {Class Dep} _.
Arguments ClassToken {Class Dep} _.
Arguments imports {Class Factory Import Dep} _.
Arguments useExisting {Class Factory Import Dep} _.
Arguments useClass {Class Factory Import Dep} _.
Arguments useFactory {Class Factory Import Dep} _.
Arguments inject {Class Factory Import Dep} _.
Arguments isGlobal {Class Factory Import Dep} _.
Arguments global {Class Factory Import Dep} _.
Arguments module_imports {Class Factory Import Dep} _.
Arguments providers {Class Factory Import Dep} _.
Arguments exports {Class Factory Import Dep} _.
Arguments forRoot {Class Factory Import Dep} _.
Arguments createAsyncOptionsProvider {Class Factory Import Dep} _.
Arguments createAsyncProviders {Class Factory Import Dep} _.
Arguments forRootAsync {Class Factory Import Dep} _.
Arguments provides_options {Class Factory Dep} _.
Arguments is_service {Class Factory Dep} _.
Arguments how_many {Class Factory Dep} _ _.

End RedisCacheModule.

(** * Properties *)

(** Unfolds the monad under a method body. *)
Ltac run :=
  unfold try_catch, bind, client_get, client_set, client_del_spread, client_del, client_scan,
    client_flushdb, client_dbsize, client_info, issue, await, detach, ret, throw,
    lift_sync, debug_log, logger_debug, logger_error, write_log, out_of_fuel;
  simpl.

(** ** Strings *)

Section StringFacts.

Lemma startsWith_append (p rest : string) : JsString.startsWith p (p +:+ rest) = true.
Proof.
  unfold JsString.startsWith.
  induction p as [|c p IH]; simpl.
  - now destruct rest.
  - destruct (Ascii.ascii_dec c c) as [_|ne]; [exact IH | now destruct ne].
Qed.

Lemma slice_append (p rest : string) : JsString.slice (String.length p) (p +:+ rest) = rest.
Proof. induction p as [|c p IH]; simpl; [now destruct rest | exact IH]. Qed.

Lemma replace_first_unfold (pat s : string) :
  JsString.replace_first pat s =
  if JsString.startsWith pat s then JsString.slice (String.length pat) s
  else match s with
       | EmptyString => EmptyString
       | String c s' => String c (JsString.replace_first pat s')
       end.
Proof. destruct s; reflexivity. Qed.

(** On a key that starts with the prefix, stripping removes that leading
    occurrence and nothing else. *)
Lemma replace_first_leading (p rest : string) :
  JsString.replace_first p (p +:+ rest) = rest.
Proof. rewrite replace_first_unfold, startsWith_append. apply slice_append. Qed.

(** On a key that carries the prefix after one other character, and not
    at its start, stripping takes the inner occurrence out. *)
Lemma replace_first_inner (c : ascii) (p rest : string) :
  JsString.startsWith p (String c (p +:+ rest)) = false ->
  JsString.replace_first p (String c (p +:+ rest)) = String c rest.
Proof.
  intros Hstart. rewrite replace_first_unfold, Hstart.
  now rewrite replace_first_leading.
Qed.

Lemma keysWithoutPrefix_leading (p : string) (rests : list string) :
  keysWithoutPrefix p (map (String.append p) rests) = rests.
Proof.
  unfold keysWithoutPrefix. destruct p as [|c p]; simpl.
  - induction rests as [|r rests IH]; simpl; [reflexivity | now rewrite IH].
  - induction rests as [|r rests IH]; [reflexivity|].
    cbn [map]. rewrite IH.
    now rewrite (replace_first_leading (String c p) r).
Qed.

End StringFacts.

(** ** Prefix stripping *)

(** C1: prefix stripping is meant to take the leading prefix off a key and
    to leave any other key alone.  On a key that starts with the prefix it
    does ([replace_first_leading]).  But the code strips with an unanchored
    [replace]: a scanned key that does not start with the prefix and
    contains it further in loses that inner occurrence.  With the prefix
    [*:] the scan for [*:user:*] also returns [x*:user:1], which
    [getKeysByPattern] hands out as [xuser:1] and [delPattern] passes to
    DEL under that name. *)
Theorem C1_strip_is_not_anchored :
  JsString.startsWith "*:" "x*:user:1" = false
  /\ keysWithoutPrefix "*:" ["x*:user:1"] = ["xuser:1"]
  /\ keysWithoutPrefix "app:" ["user:app:1"] = ["user:1"]
  /\ fst (getKeysByPattern PrefixExample.svc 10 "user:*" PrefixExample.w)
     = Returned ["user:1"; "xuser:1"]
  /\ trace (snd (delPattern (G := Engines.roomy) PrefixExample.svc 10 "user:*" PrefixExample.w))
     = [EvDel ["user:1"; "xuser:1"]; EvScan "0" "*:user:*" 100].
Proof. repeat split; vm_compute; reflexivity. Qed.

(** ** Execution mode *)

Section ExecutionMode.
Context {Env : Type} {J : Json} {G : Engine}.
Variable this : RedisCacheService Env.

Lemma useFireAndForget_with (b : bool) :
  useFireAndForget (with_fireAndForget this b) None = b.
Proof. reflexivity. Qed.

(** C2: in [set], [delKey], [delKeys] and [reset] the mode is the per-call
    option when it is given, [false] included, and the facade default
    otherwise, and the options matter through the mode alone; with facade
    default [true] and a per-call [false], [delKey] returns (or throws)
    what DEL answers; with facade default [false] and a per-call [true]
    it returns 0 whatever DEL answers.  Each of the four methods runs in
    the resolved mode ([set] for a value that encodes, [delKeys] for a
    non-empty key list the engine can spread): it sends its command once,
    and then in blocking mode returns or throws what the command answers,
    and in fire-and-forget mode returns (0 for the deletes) whatever the
    command answers. *)
Theorem C2_execution_mode_precedence :
  (forall b, useFireAndForget this (Some {| opt_fireAndForget := Some b |}) = b)
  /\ useFireAndForget this (Some {| opt_fireAndForget := None |}) = fireAndForget this
  /\ useFireAndForget this None = fireAndForget this
  /\ (forall key value ttl options,
        set this key value ttl options
        = set (with_fireAndForget this (useFireAndForget this options)) key value ttl None)
  /\ (forall key options,
        delKey this key options
        = delKey (with_fireAndForget this (useFireAndForget this options)) key None)
  /\ (forall keys options,
        delKeys this keys options
        = delKeys (with_fireAndForget this (useFireAndForget this options)) keys None)
  /\ (forall options,
        reset this options
        = reset (with_fireAndForget this (useFireAndForget this options)) None)
  /\ (forall key w,
        fst (delKey (with_fireAndForget this true) key
               (Some {| opt_fireAndForget := Some false |}) w)
        = awaited (fst (redis_del (client this) [key] (env w))))
  /\ (forall key w,
        fst (delKey (with_fireAndForget this false) key
               (Some {| opt_fireAndForget := Some true |}) w)
        = Returned 0)
  /\ (forall key value ttl options w s,
        JSON_stringify value = inr s ->
        fst (set this key value ttl options w)
        = (if useFireAndForget this options then Returned tt
           else awaited (fst (redis_set (client this) key s (expiry this ttl) (env w))))
        /\ env (snd (set this key value ttl options w))
           = snd (redis_set (client this) key s (expiry this ttl) (env w))
        /\ trace (snd (set this key value ttl options w))
           = EvSet key s (expiry this ttl) :: trace w)
  /\ (forall key options w,
        fst (delKey this key options w)
        = (if useFireAndForget this options then Returned 0
           else awaited (fst (redis_del (client this) [key] (env w))))
        /\ env (snd (delKey this key options w))
           = snd (redis_del (client this) [key] (env w))
        /\ trace (snd (delKey this key options w)) = EvDel [key] :: trace w)
  /\ (forall keys options w,
        keys <> [] ->
        too_many keys = false ->
        fst (delKeys this keys options w)
        = (if useFireAndForget this options then Returned 0
           else awaited (fst (redis_del (client this) keys (env w))))
        /\ env (snd (delKeys this keys options w))
           = snd (redis_del (client this) keys (env w))
        /\ trace (snd (delKeys this keys options w)) = EvDel keys :: trace w)
  /\ (forall options w,
        fst (reset this options w)
        = (if useFireAndForget this options then Returned tt
           else awaited (fst (redis_flushdb (client this) (env w))))
        /\ env (snd (reset this options w)) = snd (redis_flushdb (client this) (env w))
        /\ trace (snd (reset this options w)) = EvFlushdb :: trace w).
Proof.
  do 7 (split; [reflexivity |]).
  repeat match goal with |- _ /\ _ => split end.
  - intros key w.
    unfold delKey, try_catch, bind, client_del, issue, debug_log, logger_debug,
      write_log, await, ret, throw, logger_error; simpl.
    destruct (debug this); simpl;
      destruct (redis_del (client this) [key] (env w)) as [[n|e] e']; reflexivity.
  - intros key w.
    unfold delKey, try_catch, bind, client_del, issue, debug_log, logger_debug,
      write_log, detach, ret, throw, logger_error; simpl.
    destruct (debug this); simpl;
      destruct (redis_del (client this) [key] (env w)) as [[n|e] e']; reflexivity.
  - intros key value ttl options w s Hs. unfold set, expiry. run. rewrite Hs; simpl.
    destruct (ttl_truthy (match ttl with Some t => Some t | None => defaultTtl this end));
      destruct (debug this); simpl;
      match goal with
      | |- context [redis_set ?c ?k ?v ?x ?e] =>
          destruct (redis_set c k v x e) as [[[]|err] e']
      end;
      destruct (useFireAndForget this options); simpl; auto.
  - intros key options w. unfold delKey. run.
    destruct (debug this); simpl;
      destruct (redis_del (client this) [key] (env w)) as [[n|e] e'];
      destruct (useFireAndForget this options); simpl; auto.
  - intros keys options w Hne Hfits. unfold delKeys.
    destruct keys as [|k keys]; [now destruct Hne |]. run.
    destruct (debug this); simpl; rewrite Hfits; simpl;
      destruct (redis_del (client this) (k :: keys) (env w)) as [[n|e] e'];
      destruct (useFireAndForget this options); simpl; auto.
  - intros options w. unfold reset. run.
    destruct (debug this); simpl;
      destruct (redis_flushdb (client this) (env w)) as [[[]|e] e'];
      destruct (useFireAndForget this options); simpl; auto.
Qed.

End ExecutionMode.

Lemma C2_execution_mode_witness :
  fst (delKey WriteExample.detached "n" (Some {| opt_fireAndForget := Some false |})
         WriteExample.holding) = Returned 1
  /\ fst (delKey WriteExample.blocking "n" (Some {| opt_fireAndForget := Some true |})
            WriteExample.holding) = Returned 0
  /\ MemRedis.cells
       (env (snd (delKey WriteExample.blocking "n"
                    (Some {| opt_fireAndForget := Some true |}) WriteExample.holding)))
     !! "app:n" = None
  /\ fst (set (J := MiniJson.json) WriteExample.detached "n" (MiniJson.JNum 7) None
            (Some {| opt_fireAndForget := Some false |}) WriteExample.replica)
     = Thrown MemRedis.read_only
  /\ fst (delKeys (G := Engines.roomy) WriteExample.detached ["n"; "m"]
            (Some {| opt_fireAndForget := Some false |}) WriteExample.holding)
     = Returned 1.
Proof.
  destruct (C2_execution_mode_precedence (J := MiniJson.json) (G := Engines.roomy)
              WriteExample.detached)
    as (_ & _ & _ & _ & _ & _ & _ & Hblocks & _ & Hset & _ & Hkeys & _).
  destruct (C2_execution_mode_precedence (J := MiniJson.json) (G := Engines.roomy)
              WriteExample.blocking)
    as (_ & _ & _ & _ & _ & _ & _ & _ & Hzero & _).
  split; [| split; [| split; [| split]]].
  - change WriteExample.detached with (with_fireAndForget WriteExample.detached true).
    rewrite Hblocks. vm_compute. reflexivity.
  - exact (Hzero "n" WriteExample.holding).
  - vm_compute. reflexivity.
  - destruct (Hset "n" (MiniJson.JNum 7) None
                (Some {| opt_fireAndForget := Some false |}) WriteExample.replica "7"
                eq_refl) as [Hres _].
    rewrite Hres. vm_compute. reflexivity.
  - destruct (Hkeys ["n"; "m"] (Some {| opt_fireAndForget := Some false |})
                WriteExample.holding) as [Hres _];
      [discriminate | reflexivity |].
    rewrite Hres. vm_compute. reflexivity.
Defined.

(** ** Reading *)

Section Reading.
Context {Env : Type} {J : Json}.
Variable this : RedisCacheService Env.

(** C7: [get] on a key the store does not hold returns [null] and logs no
    error; on a key whose payload does not decode it throws the decode
    error. *)
Theorem C7_get_absent_or_undecodable (key : string) (w : World Env) :
  (forall e1,
      redis_get (client this) key (env w) = (Fulfilled None, e1) ->
      get this key w
      = (Returned null,
         mkWorld e1 (EvGet key :: trace w)
           (debug_line this ("GET key: " +:+ key +:+ " - MISS") ++ logs w)))
  /\ (forall s e1 err,
      redis_get (client this) key (env w) = (Fulfilled (Some s), e1) ->
      JSON_parse s = inl err ->
      fst (get this key w) = Thrown err).
Proof.
  split.
  - intros e1 H. unfold get, debug_line. run. rewrite H.
    destruct w as [e t l]; destruct (debug this); reflexivity.
  - intros s e1 err H Hp. unfold get. run. rewrite H.
    destruct (debug this); simpl; rewrite Hp; reflexivity.
Qed.

End Reading.

Lemma C7_get_witness :
  fst (get (J := MiniJson.json) ReadExample.svc "gone" ReadExample.w)
  = Returned MiniJson.JNull
  /\ fst (get (J := MiniJson.json) ReadExample.svc "torn" ReadExample.w)
     = Thrown MiniJson.syntax_error.
Proof.
  pose proof (C7_get_absent_or_undecodable (J := MiniJson.json)
                ReadExample.svc "gone" ReadExample.w) as [Habsent _].
  pose proof (C7_get_absent_or_undecodable (J := MiniJson.json)
                ReadExample.svc "torn" ReadExample.w) as [_ Htorn].
  split.
  - erewrite Habsent; [reflexivity | vm_compute; reflexivity].
  - eapply Htorn; vm_compute; reflexivity.
Defined.

(** ** Statistics *)

Section Statistics.
Context {Env : Type}.
Variable this : RedisCacheService Env.

(** [parseMemoryInfo] is a total function: the search over the INFO text
    has no failing case. *)
Lemma parseMemoryInfo_line (key value rest : string) :
  JsString.dot_run (value +:+ rest) <> "" ->
  parseMemoryInfo ((key +:+ ":") +:+ (value +:+ rest)) key
  = Some (JsString.trim (JsString.dot_run (value +:+ rest))).
Proof.
  intros Hne. unfold parseMemoryInfo.
  set (s := (key +:+ ":") +:+ (value +:+ rest)).
  assert (H : JsString.match_after_colon key s
              = Some (JsString.dot_run (value +:+ rest))).
  { assert (Hhere : (if JsString.startsWith (key +:+ ":") s
                     then match JsString.dot_run
                                  (JsString.slice (String.length (key +:+ ":")) s) with
                          | EmptyString => None
                          | cap => Some cap
                          end
                     else None) = Some (JsString.dot_run (value +:+ rest))).
    { unfold s. rewrite startsWith_append, slice_append.
      destruct (JsString.dot_run (value +:+ rest)); [now destruct Hne | reflexivity]. }
    destruct s; simpl; simpl in Hhere; rewrite Hhere; reflexivity. }
  now rewrite H.
Qed.

(** C6: [getStats] always returns a snapshot.  When the client is not
    ready the snapshot is [{connected:false, keyCount:0, error:'Redis not
    connected'}] and the world is untouched: no command was issued.  When
    DBSIZE or INFO fails, the snapshot is not connected and carries the
    message of the error. *)
Theorem C6_getStats_never_throws (w : World Env) :
  (exists s, fst (getStats this w) = Returned s)
  /\ (status (client this) (env w) <> "ready" ->
      getStats this w = (Returned (failed_snapshot "Redis not connected"), w))
  /\ (forall e e1,
      status (client this) (env w) = "ready" ->
      redis_dbsize (client this) (env w) = (Rejected e, e1) ->
      fst (getStats this w) = Returned (failed_snapshot (message e)))
  /\ (forall n e1 e e2,
      status (client this) (env w) = "ready" ->
      redis_dbsize (client this) (env w) = (Fulfilled n, e1) ->
      redis_info (client this) "memory" e1 = (Rejected e, e2) ->
      fst (getStats this w) = Returned (failed_snapshot (message e))).
Proof.
  repeat split.
  - unfold getStats. run.
    destruct (String.eqb (status (client this) (env w)) "ready"); simpl; [|eauto].
    destruct (redis_dbsize (client this) (env w)) as [[n|e] e1]; simpl; [|eauto].
    destruct (redis_info (client this) "memory" e1) as [[i|e] e2]; simpl; [|eauto].
    destruct (debug this); simpl; eauto.
  - intros Hs. apply String.eqb_neq in Hs.
    unfold getStats. run. rewrite Hs. reflexivity.
  - intros e e1 Hs Hd. apply String.eqb_eq in Hs.
    unfold getStats. run. rewrite Hs; simpl. rewrite Hd. reflexivity.
  - intros n e1 e e2 Hs Hd Hi. apply String.eqb_eq in Hs.
    unfold getStats. run. rewrite Hs; simpl. rewrite Hd; simpl. rewrite Hi. reflexivity.
Qed.

End Statistics.

Lemma C6_getStats_witness :
  getStats StatsExample.svc StatsExample.w_down
  = (Returned (failed_snapshot "Redis not connected"), StatsExample.w_down)
  /\ fst (getStats Flaky.svc Flaky.w)
     = Returned (failed_snapshot "read ECONNRESET")
  /\ fst (getStats StatsExample.svc StatsExample.w_last)
     = Returned (failed_snapshot "Connection is closed.").
Proof.
  split; [|split].
  - apply (proj1 (proj2 (C6_getStats_never_throws StatsExample.svc StatsExample.w_down))).
    vm_compute. discriminate.
  - apply (proj1 (proj2 (proj2 (C6_getStats_never_throws Flaky.svc Flaky.w)))
             Flaky.reset_by_peer tt); reflexivity.
  - eapply (proj2 (proj2 (proj2 (C6_getStats_never_throws StatsExample.svc
                                   StatsExample.w_last)))
              1 _ MemRedis.closed); vm_compute; reflexivity.
Defined.

(** ** Writing and cache-aside *)

Section Writing.
Context {Env : Type} {J : Json}.
Variable this : RedisCacheService Env.

(** One run of [set] whose value encodes: SET is issued once, with the
    encoded value and the resolved expiry; a rejection is logged in both
    modes and thrown in blocking mode only. *)
Lemma set_run (key : string) (value : Value) (ttl : option JsNumber)
    (options : option CacheOperationOptions) (w : World Env)
    (s : string) (p : Settled unit) (e' : Env) :
  JSON_stringify value = inr s ->
  redis_set (client this) key s (expiry this ttl) (env w) = (p, e') ->
  set this key value ttl options w
  = (if useFireAndForget this options then Returned tt else awaited p,
     mkWorld e' (EvSet key s (expiry this ttl) :: trace w)
       (rejection_line ("Error setting key " +:+ key +:+ ":") p
        ++ set_debug_line this key ttl ++ logs w)).
Proof.
  intros Hs Hp. unfold set, set_debug_line, debug_line, expiry in *. run.
  rewrite Hs; simpl.
  destruct (ttl_truthy (match ttl with Some t => Some t | None => defaultTtl this end));
    destruct (debug this); simpl; rewrite Hp;
    destruct (useFireAndForget this options); destruct p as [[]|e]; reflexivity.
Qed.

(** A value that does not encode makes [set] throw before any command. *)
Lemma set_unencodable (key : string) (value : Value) (ttl : option JsNumber)
    (options : option CacheOperationOptions) (w : World Env) (err : JsError) :
  JSON_stringify value = inl err ->
  set this key value ttl options w
  = (Thrown err,
     mkWorld (env w) (trace w)
       (error_line ("Error setting key " +:+ key +:+ ":") err :: logs w)).
Proof. intros Hs. unfold set. run. rewrite Hs. reflexivity. Qed.

(** C8, amended: the round trip holds when the write was acknowledged,
    which a blocking [set] that returns guarantees; the store is one that
    answers GET with what it acknowledged (nothing expired or deleted in
    between) and the encoding of the value decodes. *)
Theorem C8_round_trip_of_acknowledged_write (key : string) (value : Value)
    (ttl : option JsNumber) (options : option CacheOperationOptions) (w : World Env)
    (s : string) (v' : Value) :
  JSON_stringify value = inr s ->
  JSON_parse s = inr v' ->
  (forall e', redis_set (client this) key s (expiry this ttl) (env w) = (Fulfilled tt, e') ->
              fst (redis_get (client this) key e') = Fulfilled (Some s)) ->
  useFireAndForget this options = false
  \/ fst (redis_set (client this) key s (expiry this ttl) (env w)) = Fulfilled tt ->
  round_trip this key value ttl options w.
Proof.
  intros Hs Hp Hlaw Hack w1 Hset.
  destruct (redis_set (client this) key s (expiry this ttl) (env w)) as [p e'] eqn:Hcmd.
  rewrite (set_run key value ttl options w s p e' Hs Hcmd) in Hset.
  assert (Hp' : p = Fulfilled tt).
  { destruct Hack as [Hmode | Hok]; [|exact Hok].
    rewrite Hmode in Hset. destruct p as [[]|e]; [reflexivity | discriminate]. }
  subst p. inversion Hset as [[Hw1]]. clear Hset.
  specialize (Hlaw e' eq_refl).
  exists v'. split; [| exists s; split; assumption].
  unfold get. run.
  destruct (redis_get (client this) key e') as [q e2]; simpl in Hlaw; subst q; simpl.
  destruct (debug this); simpl; rewrite Hp; reflexivity.
Qed.


(** C9: the write by which [getOrSet] fills the cache on a miss runs in
    the facade's default mode, whatever the caller wants: [getOrSet] has
    no options parameter and hands none to [set].  Under a fire-and-forget
    default the computed value is returned whether SET was acknowledged or
    rejected, and a rejection only adds an error line to the log; under a
    blocking default the same rejection is thrown. *)
Theorem C9_getOrSet_write_follows_facade_default (key : string)
    (fn : Env -> Settled Value * Env) (ttl : option JsNumber) (w : World Env)
    (e1 e2 e3 : Env) (v : Value) (s : string) (p : Settled unit) :
  redis_get (client this) key (env w) = (Fulfilled None, e1) ->
  fn e1 = (Fulfilled v, e2) ->
  JSON_stringify v = inr s ->
  redis_set (client this) key s (expiry this ttl) e2 = (p, e3) ->
  env (snd (getOrSet this key fn ttl w)) = e3
  /\ trace (snd (getOrSet this key fn ttl w))
     = EvSet key s (expiry this ttl) :: EvCompute :: EvGet key :: trace w
  /\ (fireAndForget this = true ->
      fst (getOrSet this key fn ttl w) = Returned v
      /\ logs (snd (getOrSet this key fn ttl w))
         = (rejection_line ("Error setting key " +:+ key +:+ ":") p
            ++ set_debug_line this key ttl
            ++ debug_line this ("GETORSET key: " +:+ key +:+ " - computing value")
            ++ logs w)%list)
  /\ (fireAndForget this = false ->
      fst (getOrSet this key fn ttl w)
      = awaited (match p with Fulfilled _ => Fulfilled v | Rejected e => Rejected e end)).
Proof.
  intros Hget Hfn Hs Hcmd.
  unfold getOrSet, set_debug_line, debug_line. run. rewrite Hget.
  destruct (debug this) eqn:Hd; simpl; rewrite Hfn; simpl;
    repeat match goal with
           | |- context [set this key v ttl None ?W] =>
               rewrite (set_run key v ttl None W s p e3 Hs Hcmd)
           end; simpl;
    unfold set_debug_line, debug_line; rewrite Hd;
    destruct (fireAndForget this); simpl; destruct p as [[]|e]; simpl;
    repeat split; intros; try discriminate; reflexivity.
Qed.

End Writing.

(** C8 as stated fails: under a fire-and-forget default, [set] against a
    read-only replica returns normally although the write was rejected,
    and the following [get] returns [null], not the 7 that was set. *)
Lemma C8_round_trip_counterexample :
  ~ round_trip (J := MiniJson.json) WriteExample.detached
      "n" (MiniJson.JNum 7) None None WriteExample.replica.
Proof.
  intros H.
  destruct (H (snd (set (J := MiniJson.json) WriteExample.detached
                      "n" (MiniJson.JNum 7) None None WriteExample.replica)))
    as (v' & Hget & s & Hs & Hp).
  - vm_compute. reflexivity.
  - vm_compute in Hget. vm_compute in Hs.
    inversion Hget; subst v'. inversion Hs; subst s.
    vm_compute in Hp. discriminate.
Qed.

Lemma C8_round_trip_witness :
  round_trip (J := MiniJson.json) WriteExample.blocking
    "n" (MiniJson.JNum 7) (Some (JsInt 60)) None WriteExample.primary
  /\ round_trip (J := MiniJson.json) WriteExample.detached
       "n" (MiniJson.JNum 7) None None WriteExample.primary.
Proof.
  split.
  - apply (C8_round_trip_of_acknowledged_write (J := MiniJson.json)
             WriteExample.blocking "n" (MiniJson.JNum 7) (Some (JsInt 60)) None
             WriteExample.primary "7" (MiniJson.JNum 7)).
    + reflexivity.
    + reflexivity.
    + intros e' H. vm_compute in H. inversion H; subst e'. vm_compute. reflexivity.
    + left. reflexivity.
  - apply (C8_round_trip_of_acknowledged_write (J := MiniJson.json)
             WriteExample.detached "n" (MiniJson.JNum 7) None None
             WriteExample.primary "7" (MiniJson.JNum 7)).
    + reflexivity.
    + reflexivity.
    + intros e' H. vm_compute in H. inversion H; subst e'. vm_compute. reflexivity.
    + right. vm_compute. reflexivity.
Defined.


Lemma C9_getOrSet_witness :
  fst (getOrSet (J := MiniJson.json) WriteExample.detached "n" WriteExample.seven None
         WriteExample.replica) = Returned (MiniJson.JNum 7)
  /\ logs (snd (getOrSet (J := MiniJson.json) WriteExample.detached "n" WriteExample.seven
                  None WriteExample.replica))
     = [error_line "Error setting key n:" MemRedis.read_only]
  /\ fst (getOrSet (J := MiniJson.json) WriteExample.blocking "n" WriteExample.seven None
            WriteExample.replica) = Thrown MemRedis.read_only.
Proof.
  assert (Hd := fun e1 e2 e3 p =>
            C9_getOrSet_write_follows_facade_default (J := MiniJson.json)
              WriteExample.detached "n" WriteExample.seven None WriteExample.replica
              e1 e2 e3 (MiniJson.JNum 7) "7" p).
  assert (Hb := fun e1 e2 e3 p =>
            C9_getOrSet_write_follows_facade_default (J := MiniJson.json)
              WriteExample.blocking "n" WriteExample.seven None WriteExample.replica
              e1 e2 e3 (MiniJson.JNum 7) "7" p).
  edestruct Hd as (_ & _ & Hfaf & _);
    [vm_compute; reflexivity | vm_compute; reflexivity | reflexivity
    | vm_compute; reflexivity |].
  edestruct Hb as (_ & _ & _ & Hblk);
    [vm_compute; reflexivity | vm_compute; reflexivity | reflexivity
    | vm_compute; reflexivity |].
  destruct (Hfaf eq_refl) as [Hres Hlog].
  split; [exact Hres | split; [rewrite Hlog; reflexivity | exact (Hblk eq_refl)]].
Defined.

(** ** Scanning *)

Section Scanning.
Context {Env : Type} {G : Engine}.
Variable this : RedisCacheService Env.

Lemma keysWithoutPrefix_nil (keyPrefix : string) : keysWithoutPrefix keyPrefix [] = [].
Proof. unfold keysWithoutPrefix. now destruct (JsString.truthy keyPrefix). Qed.

(** One round of the loop: the accumulator after a page. *)
Lemma accumulate_page (keyPrefix : string) (allKeys keys : list string) :
  (if (0 <? length keys)%nat
   then allKeys ++ keysWithoutPrefix keyPrefix keys
   else allKeys) = allKeys ++ keysWithoutPrefix keyPrefix keys.
Proof.
  destruct keys as [|k keys]; simpl; [|reflexivity].
  now rewrite keysWithoutPrefix_nil, app_nil_r.
Qed.

Lemma scanLoop_step (fuel : nat) (keyPrefix fullPattern cursor next : string)
    (allKeys keys : list string) (e e1 : Env) (tr : list Event) (l : list LogEntry) :
  redis_scan (client this) cursor fullPattern 100 e = (Fulfilled (next, keys), e1) ->
  scanLoop this (S fuel) keyPrefix fullPattern cursor allKeys (mkWorld e tr l)
  = if String.eqb next "0"
    then (Returned (allKeys ++ keysWithoutPrefix keyPrefix keys),
          mkWorld e1 (EvScan cursor fullPattern 100 :: tr) l)
    else scanLoop this fuel keyPrefix fullPattern next
           (allKeys ++ keysWithoutPrefix keyPrefix keys)
           (mkWorld e1 (EvScan cursor fullPattern 100 :: tr) l).
Proof.
  intros H. cbn [scanLoop]. run. rewrite H. cbn [fst snd].
  rewrite accumulate_page. destruct (String.eqb next "0"); reflexivity.
Qed.

(** With fuel for every page the loop returns all the keys, having issued
    one SCAN per page. *)
Lemma scanLoop_complete (keyPrefix fullPattern : string) (e : Env) (cursor : string)
    (pages : list (string * list string)) (e' : Env) :
  Scans (client this) fullPattern e cursor pages e' ->
  forall fuel allKeys tr l,
    (length pages <= fuel)%nat ->
    scanLoop this fuel keyPrefix fullPattern cursor allKeys (mkWorld e tr l)
    = (Returned (allKeys ++ gathered keyPrefix pages),
       mkWorld e' (rev (scan_calls fullPattern cursor pages) ++ tr) l).
Proof.
  induction 1 as [e cursor keys e' Hscan | e cursor next keys e1 pages e' Hscan Hne _ IH];
    intros fuel allKeys tr l Hfuel.
  - destruct fuel as [|fuel]; [simpl in Hfuel; lia|].
    rewrite (scanLoop_step _ _ _ _ _ _ _ _ _ _ _ Hscan). simpl.
    now rewrite app_nil_r.
  - destruct fuel as [|fuel]; [simpl in Hfuel; lia|].
    rewrite (scanLoop_step _ _ _ _ _ _ _ _ _ _ _ Hscan).
    apply String.eqb_neq in Hne. rewrite Hne.
    rewrite IH by (simpl in Hfuel; lia).
    simpl. now rewrite <- !app_assoc.
Qed.

(** With less fuel than pages the loop has not returned: it is never done
    before the page that carries ["0"]. *)
Lemma scanLoop_starved (keyPrefix fullPattern : string) (e : Env) (cursor : string)
    (pages : list (string * list string)) (e' : Env) :
  Scans (client this) fullPattern e cursor pages e' ->
  forall fuel allKeys tr l,
    (fuel < length pages)%nat ->
    fst (scanLoop this fuel keyPrefix fullPattern cursor allKeys (mkWorld e tr l))
    = OutOfFuel.
Proof.
  induction 1 as [e cursor keys e' Hscan | e cursor next keys e1 pages e' Hscan Hne _ IH];
    intros fuel allKeys tr l Hfuel.
  - destruct fuel as [|fuel]; [reflexivity | simpl in Hfuel; lia].
  - destruct fuel as [|fuel]; [reflexivity|].
    rewrite (scanLoop_step _ _ _ _ _ _ _ _ _ _ _ Hscan).
    apply String.eqb_neq in Hne. rewrite Hne.
    apply IH. simpl in Hfuel; lia.
Qed.

(** C3: when the store answers the successive SCAN calls with [pages], of
    which only the last carries the cursor ["0"] (any page may be empty),
    then with fuel for all pages [getKeysByPattern] returns the stripped
    keys of every page and [delPattern] returns or throws, each having
    issued exactly one SCAN per page, each at the cursor the page before
    returned; with fuel for fewer rounds than there are pages neither has
    returned. *)
Theorem C3_scan_runs_until_sentinel (pattern : string)
    (pages : list (string * list string)) (e' : Env) (w : World Env) :
  Scans (client this) (default "" (keyPrefix (client this)) +:+ pattern) (env w) "0" pages e' ->
  (forall fuel, (length pages <= fuel)%nat ->
     fst (getKeysByPattern this fuel pattern w)
     = Returned (gathered (default "" (keyPrefix (client this))) pages)
     /\ env (snd (getKeysByPattern this fuel pattern w)) = e'
     /\ trace (snd (getKeysByPattern this fuel pattern w))
        = rev (scan_calls (default "" (keyPrefix (client this)) +:+ pattern) "0" pages)
          ++ trace w
     /\ fst (delPattern this fuel pattern w) <> OutOfFuel
     /\ exists del,
          trace (snd (delPattern this fuel pattern w))
          = del ++ rev (scan_calls (default "" (keyPrefix (client this)) +:+ pattern)
                          "0" pages) ++ trace w
          /\ (del = [] \/ del = [EvDel (gathered (default "" (keyPrefix (client this)))
                                          pages)]))
  /\ (forall fuel, (fuel < length pages)%nat ->
     fst (getKeysByPattern this fuel pattern w) = OutOfFuel
     /\ fst (delPattern this fuel pattern w) = OutOfFuel).
Proof.
  intros Hscans. destruct w as [e tr l]. simpl in Hscans. split.
  - intros fuel Hfuel.
    pose proof (scanLoop_complete (default "" (keyPrefix (client this))) _ _ _ _ _ Hscans
                  fuel [] tr l Hfuel) as Hloop.
    simpl in Hloop.
    unfold getKeysByPattern, delPattern. run. rewrite Hloop.
    destruct (gathered (default "" (keyPrefix (client this))) pages) as [|k ks] eqn:Hall;
      simpl.
    + destruct (debug this); simpl;
        (do 3 (split; [reflexivity|])); (split; [discriminate|]);
        exists []; (split; [reflexivity | now left]).
    + destruct (too_many (k :: ks)); simpl.
      * destruct (debug this); simpl;
          (do 3 (split; [reflexivity|])); (split; [discriminate|]);
          exists []; (split; [reflexivity | now left]).
      * destruct (redis_del (client this) (k :: ks) e') as [[n|err] e2];
          destruct (debug this); destruct (fireAndForget this); simpl;
          (do 3 (split; [reflexivity|])); (split; [discriminate|]);
          exists [EvDel (k :: ks)]; (split; [reflexivity | now right]).
  - intros fuel Hfuel.
    pose proof (scanLoop_starved (default "" (keyPrefix (client this))) _ _ _ _ _ Hscans
                  fuel [] tr l Hfuel) as Hloop.
    unfold getKeysByPattern, delPattern. run.
    destruct (scanLoop this fuel _ _ "0" [] (mkWorld e tr l)) as [[ks|err|] w1];
      simpl in Hloop; try discriminate. split; reflexivity.
Qed.

(** C4: [delPattern] has no options parameter and takes its mode from the
    facade default.  After a scan that found no key it returns 0 and has
    issued no DEL.  After a scan that found keys the engine can spread
    into one call, it issues one DEL for all of them under the names the
    stripping gave them; with a blocking default it returns the count DEL
    answers (or throws its error), with a fire-and-forget default it
    returns 0 whatever DEL answers.  After a scan that found more keys
    than the engine spreads, it throws a [RangeError] under either default
    and issues no DEL, so that every key found stays in the store. *)
Theorem C4_delPattern_follows_facade_default (fuel : nat) (pattern : string)
    (pages : list (string * list string)) (e' : Env) (w : World Env) :
  Scans (client this) (default "" (keyPrefix (client this)) +:+ pattern) (env w) "0" pages e' ->
  (length pages <= fuel)%nat ->
  (gathered (default "" (keyPrefix (client this))) pages = [] ->
     fst (delPattern this fuel pattern w) = Returned 0
     /\ env (snd (delPattern this fuel pattern w)) = e'
     /\ trace (snd (delPattern this fuel pattern w))
        = rev (scan_calls (default "" (keyPrefix (client this)) +:+ pattern) "0" pages)
          ++ trace w)
  /\ (gathered (default "" (keyPrefix (client this))) pages <> [] ->
      too_many (gathered (default "" (keyPrefix (client this))) pages) = false ->
      trace (snd (delPattern this fuel pattern w))
      = EvDel (gathered (default "" (keyPrefix (client this))) pages)
        :: rev (scan_calls (default "" (keyPrefix (client this)) +:+ pattern) "0" pages)
        ++ trace w
      /\ env (snd (delPattern this fuel pattern w))
         = snd (redis_del (client this)
                  (gathered (default "" (keyPrefix (client this))) pages) e')
      /\ fst (delPattern this fuel pattern w)
         = if fireAndForget this then Returned 0
           else awaited (fst (redis_del (client this)
                                (gathered (default "" (keyPrefix (client this))) pages)
                                e')))
  /\ (too_many (gathered (default "" (keyPrefix (client this))) pages) = true ->
      fst (delPattern this fuel pattern w) = Thrown range_error
      /\ env (snd (delPattern this fuel pattern w)) = e'
      /\ trace (snd (delPattern this fuel pattern w))
         = rev (scan_calls (default "" (keyPrefix (client this)) +:+ pattern) "0" pages)
           ++ trace w).
Proof.
  intros Hscans Hfuel. destruct w as [e tr l]. simpl in Hscans.
  pose proof (scanLoop_complete (default "" (keyPrefix (client this))) _ _ _ _ _ Hscans
                fuel [] tr l Hfuel) as Hloop.
  simpl in Hloop.
  unfold delPattern. run. rewrite Hloop.
  destruct (gathered (default "" (keyPrefix (client this))) pages) as [|k ks] eqn:Hall;
    simpl.
  - split; [intros _ | split; [intros Hne; now destruct Hne | intros H; discriminate H]].
    destruct (debug this); simpl; auto.
  - split; [discriminate |].
    destruct (too_many (k :: ks)); simpl.
    + split; [intros _ H; discriminate H | intros _; auto].
    + split; [intros _ _ | intros H; discriminate H].
      destruct (redis_del (client this) (k :: ks) e') as [[n|err] e2];
        destruct (debug this); destruct (fireAndForget this); simpl; auto.
Qed.

End Scanning.

Lemma scans_users :
  Scans (MemRedis.redis ScanExample.cfg) "app:user:*" (env ScanExample.w) "0"
    ScanExample.pages (env ScanExample.w).
Proof.
  eapply Scans_next; [vm_compute; reflexivity | discriminate |].
  eapply Scans_next; [vm_compute; reflexivity | discriminate |].
  eapply Scans_last. vm_compute; reflexivity.
Qed.

Lemma scans_orders :
  Scans (MemRedis.redis ScanExample.cfg) "app:order:*" (env ScanExample.w) "0"
    ScanExample.no_pages (env ScanExample.w).
Proof.
  eapply Scans_next; [vm_compute; reflexivity | discriminate |].
  eapply Scans_next; [vm_compute; reflexivity | discriminate |].
  eapply Scans_last. vm_compute; reflexivity.
Qed.

Lemma C3_scan_witness :
  fst (getKeysByPattern ScanExample.blocking 3 "user:*" ScanExample.w)
  = Returned ["user:1"; "user:2"]
  /\ trace (snd (getKeysByPattern ScanExample.blocking 3 "user:*" ScanExample.w))
     = [EvScan "2" "app:user:*" 100; EvScan "1" "app:user:*" 100;
        EvScan "0" "app:user:*" 100]
  /\ fst (getKeysByPattern ScanExample.blocking 2 "user:*" ScanExample.w) = OutOfFuel
  /\ fst (delPattern (G := Engines.roomy) ScanExample.blocking 2 "user:*" ScanExample.w)
     = OutOfFuel.
Proof.
  destruct (C3_scan_runs_until_sentinel (G := Engines.roomy) ScanExample.blocking
              "user:*" ScanExample.pages
              (env ScanExample.w) ScanExample.w scans_users)
    as [Hdone Hstarved].
  destruct (Hdone 3%nat) as (Hkeys & _ & Htrace & _); [simpl; lia |].
  destruct (Hstarved 2%nat) as (Hget & Hdel); [simpl; lia |].
  split; [rewrite Hkeys; reflexivity |].
  split; [rewrite Htrace; reflexivity |].
  split; assumption.
Defined.

Lemma scans_overflow :
  Scans (MemRedis.redis OverflowExample.cfg) "app:user:*" (env OverflowExample.w) "0"
    [("0", ["app:user:3"; "app:user:1"; "app:user:2"])] (env OverflowExample.w).
Proof. eapply Scans_last. vm_compute; reflexivity. Qed.

Lemma C4_delPattern_witness :
  (fst (delPattern (G := Engines.roomy) ScanExample.blocking 3 "order:*" ScanExample.w)
   = Returned 0
   /\ trace (snd (delPattern (G := Engines.roomy) ScanExample.blocking 3 "order:*"
                    ScanExample.w))
      = [EvScan "2" "app:order:*" 100; EvScan "1" "app:order:*" 100;
         EvScan "0" "app:order:*" 100])
  /\ fst (delPattern (G := Engines.roomy) ScanExample.blocking 3 "user:*" ScanExample.w)
     = Returned 2
  /\ (fst (delPattern (G := Engines.roomy) ScanExample.detached 3 "user:*" ScanExample.w)
      = Returned 0
      /\ trace (snd (delPattern (G := Engines.roomy) ScanExample.detached 3 "user:*"
                       ScanExample.w))
         = [EvDel ["user:1"; "user:2"]; EvScan "2" "app:user:*" 100;
            EvScan "1" "app:user:*" 100; EvScan "0" "app:user:*" 100])
  /\ (fst (delPattern (G := Engines.tight) OverflowExample.blocking 1 "user:*"
             OverflowExample.w) = Thrown range_error
      /\ fst (delPattern (G := Engines.tight) OverflowExample.detached 1 "user:*"
                OverflowExample.w) = Thrown range_error
      /\ trace (snd (delPattern (G := Engines.tight) OverflowExample.blocking 1 "user:*"
                       OverflowExample.w))
         = [EvScan "0" "app:user:*" 100]).
Proof.
  assert (Hfuel : (length ScanExample.pages <= 3)%nat) by (simpl; lia).
  assert (Hfuel0 : (length ScanExample.no_pages <= 3)%nat) by (simpl; lia).
  destruct (C4_delPattern_follows_facade_default (G := Engines.roomy)
              ScanExample.blocking 3 "order:*"
              ScanExample.no_pages (env ScanExample.w) ScanExample.w
              scans_orders Hfuel0) as [Hnone _].
  destruct (C4_delPattern_follows_facade_default (G := Engines.roomy)
              ScanExample.blocking 3 "user:*"
              ScanExample.pages (env ScanExample.w) ScanExample.w
              scans_users Hfuel) as (_ & Hblocking & _).
  destruct (C4_delPattern_follows_facade_default (G := Engines.roomy)
              ScanExample.detached 3 "user:*"
              ScanExample.pages (env ScanExample.w) ScanExample.w
              scans_users Hfuel) as (_ & Hdetached & _).
  destruct (C4_delPattern_follows_facade_default (G := Engines.tight)
              OverflowExample.blocking 1 "user:*" _ (env OverflowExample.w)
              OverflowExample.w scans_overflow (le_n 1)) as (_ & _ & Hover).
  destruct (C4_delPattern_follows_facade_default (G := Engines.tight)
              OverflowExample.detached 1 "user:*" _ (env OverflowExample.w)
              OverflowExample.w scans_overflow (le_n 1)) as (_ & _ & Hover').
  destruct (Hnone eq_refl) as (Hr0 & _ & Ht0).
  destruct Hblocking as (_ & _ & Hr1); [vm_compute; discriminate | reflexivity |].
  destruct Hdetached as (Ht2 & _ & Hr2); [vm_compute; discriminate | reflexivity |].
  destruct (Hover eq_refl) as (Hr3 & _ & Ht3).
  destruct (Hover' eq_refl) as (Hr4 & _).
  split; [split; [exact Hr0 | rewrite Ht0; reflexivity] |].
  split; [rewrite Hr1; vm_compute; reflexivity |].
  split; [split; [rewrite Hr2; reflexivity | rewrite Ht2; reflexivity] |].
  split; [exact Hr3 | split; [exact Hr4 | rewrite Ht3; reflexivity]].
Defined.

(** ** Several patterns *)

Section Patterns.
Context {Env : Type} {G : Engine}.
Variable this : RedisCacheService Env.

(** The loop over a list that starts with patterns already swept goes on
    from where their sweep ended. *)
Lemma delPatterns_loop_app (fuel : nat) (ps rest : list string) :
  forall (acc : Z) (w : World Env) (n : Z) (w1 : World Env),
    delPatterns_loop this fuel ps acc w = (Returned n, w1) ->
    delPatterns_loop this fuel (ps ++ rest) acc w = delPatterns_loop this fuel rest n w1.
Proof.
  induction ps as [|p ps IH]; intros acc w n w1 H.
  - simpl in H. unfold ret in H. now inversion H.
  - simpl in *. unfold bind in *.
    destruct (delPattern this fuel p w) as [[d|err|] w']; try discriminate.
    now apply IH.
Qed.

(** C10: when [delPattern] succeeds on the patterns [ps], deleting [n]
    keys in all, and throws on the next pattern [p], [delPatterns] throws
    that error.  The world it leaves is the one the failing [delPattern]
    left, with the connection state that the sweeps of [ps] produced and no
    further command issued; one error line is added.  What is thrown is
    the error alone: the count [n] appears nowhere in the outcome. *)
Theorem C10_delPatterns_not_atomic (fuel : nat) (ps : list string) (p : string)
    (qs : list string) (w : World Env) (n : Z) (w1 : World Env) (e : JsError)
    (w2 : World Env) :
  delPatterns_loop this fuel ps 0 (delPatterns_entry this (ps ++ p :: qs) w) = (Returned n, w1) ->
  delPattern this fuel p w1 = (Thrown e, w2) ->
  delPatterns this fuel (ps ++ p :: qs) w
  = (Thrown e,
     mkWorld (env w2) (trace w2) (error_line "Error deleting patterns:" e :: logs w2)).
Proof.
  intros Hswept Hfail. unfold delPatterns.
  assert (Hlen : (length (ps ++ p :: qs) =? 0)%nat = false)
    by (destruct ps; reflexivity).
  rewrite Hlen. unfold delPatterns_entry, debug_log in Hswept. unfold debug_log.
  destruct (debug this); run;
    unfold ret, logger_debug, write_log in Hswept; simpl in Hswept;
    rewrite (delPatterns_loop_app fuel ps (p :: qs) _ _ _ _ Hswept);
    simpl; unfold bind; rewrite Hfail; reflexivity.
Qed.

End Patterns.

Lemma C10_delPatterns_witness :
  fst (delPatterns (G := Engines.roomy) SweepExample.svc 5 ["a:*"; "b:*"] SweepExample.w)
  = Thrown MemRedis.closed
  /\ MemRedis.cells (env (snd (delPatterns (G := Engines.roomy) SweepExample.svc 5 ["a:*"; "b:*"]
                                SweepExample.w))) !! "app:a:1" = None
  /\ trace (snd (delPatterns (G := Engines.roomy) SweepExample.svc 5 ["a:*"; "b:*"] SweepExample.w))
     = [EvScan "0" "app:b:*" 100; EvDel ["a:1"]; EvScan "0" "app:a:*" 100].
Proof.
  pose proof (C10_delPatterns_not_atomic (G := Engines.roomy) SweepExample.svc 5
                ["a:*"] "b:*" []
                SweepExample.w 1
                (snd (delPattern (G := Engines.roomy) SweepExample.svc 5 "a:*" SweepExample.w))
                MemRedis.closed
                (snd (delPattern (G := Engines.roomy) SweepExample.svc 5 "b:*"
                        (snd (delPattern (G := Engines.roomy) SweepExample.svc 5 "a:*"
                                SweepExample.w)))))
    as H.
  simpl app in H. rewrite H.
  - repeat split; vm_compute; reflexivity.
  - vm_compute. reflexivity.
  - vm_compute. reflexivity.
Defined.

(** * Further properties of the service *)

(** ** Writing: expiry, encoding, modes *)

Section WritingMore.
Context {Env : Type} {J : Json} {G : Engine}.
Variable this : RedisCacheService Env.

(** X1: A falsy per-call TTL, that is 0 or [NaN], switches expiry off: SET
    goes out without EX even when the service has a default TTL.  An
    absent per-call TTL falls back to the default, which is sent when it
    is truthy and dropped when it is falsy or absent; a truthy per-call
    TTL is passed on as it is. *)
Theorem set_zero_ttl_means_no_expiry (key : string) (value : Value)
    (options : option CacheOperationOptions) (w : World Env) (s : string) :
  JSON_stringify value = inr s ->
  (forall t, number_truthy t = false ->
     trace (snd (set this key value (Some t) options w)) = EvSet key s None :: trace w)
  /\ (forall d, defaultTtl this = Some d -> number_truthy d = true ->
        trace (snd (set this key value None options w)) = EvSet key s (Some d) :: trace w)
  /\ (ttl_truthy (defaultTtl this) = false ->
        trace (snd (set this key value None options w)) = EvSet key s None :: trace w)
  /\ (forall t, number_truthy t = true ->
        trace (snd (set this key value (Some t) options w))
        = EvSet key s (Some t) :: trace w).
Proof.
  intros Hs.
  assert (Hrun : forall ttl,
             trace (snd (set this key value ttl options w))
             = EvSet key s (expiry this ttl) :: trace w).
  { intros ttl.
    destruct (redis_set (client this) key s (expiry this ttl) (env w)) as [p e'] eqn:H.
    now rewrite (set_run this key value ttl options w s p e' Hs H). }
  repeat match goal with |- _ /\ _ => split end.
  - intros t Ht. rewrite Hrun. unfold expiry. simpl. now rewrite Ht.
  - intros d Hd Ht. rewrite Hrun. unfold expiry. rewrite Hd. simpl. now rewrite Ht.
  - intros Hd. rewrite Hrun. unfold expiry. now rewrite Hd.
  - intros t Ht. rewrite Hrun. unfold expiry. simpl. now rewrite Ht.
Qed.

(** X2: A value that cannot be encoded makes [set] throw in fire-and-forget
    mode as well as in blocking mode, with no command sent; [getOrSet]
    then throws the same error after the compute function has run, and
    leaves the store as the function left it. *)
Theorem unencodable_value_is_thrown_in_either_mode (key : string) (value : Value)
    (ttl : option JsNumber) (w : World Env) (err : JsError) :
  JSON_stringify value = inl err ->
  (forall options,
      fst (set this key value ttl options w) = Thrown err
      /\ env (snd (set this key value ttl options w)) = env w
      /\ trace (snd (set this key value ttl options w)) = trace w)
  /\ (forall fn e1 e2,
      redis_get (client this) key (env w) = (Fulfilled None, e1) ->
      fn e1 = (Fulfilled value, e2) ->
      fst (getOrSet this key fn ttl w) = Thrown err
      /\ env (snd (getOrSet this key fn ttl w)) = e2
      /\ trace (snd (getOrSet this key fn ttl w)) = EvCompute :: EvGet key :: trace w).
Proof.
  intros Hs. split.
  - intros options. rewrite (set_unencodable this key value ttl options w err Hs). auto.
  - intros fn e1 e2 Hget Hfn. unfold getOrSet. run. rewrite Hget.
    destruct (debug this); simpl; rewrite Hfn; simpl;
      repeat match goal with
             | |- context [set this key value ttl None ?W] =>
                 rewrite (set_unencodable this key value ttl None W err Hs)
             end; simpl; auto.
Qed.

(** X3: The mode decides what the caller gets back, not what is sent: with
    any two option records, [set], [delKey], [delKeys] and [reset] issue
    the same commands and leave the connection in the same state. *)
Theorem mode_does_not_change_what_is_sent (o1 o2 : option CacheOperationOptions)
    (w : World Env) :
  (forall key value ttl,
      snd (set this key value ttl o1 w) = snd (set this key value ttl o2 w))
  /\ (forall key,
      env (snd (delKey this key o1 w)) = env (snd (delKey this key o2 w))
      /\ trace (snd (delKey this key o1 w)) = trace (snd (delKey this key o2 w)))
  /\ (forall keys,
      env (snd (delKeys this keys o1 w)) = env (snd (delKeys this keys o2 w))
      /\ trace (snd (delKeys this keys o1 w)) = trace (snd (delKeys this keys o2 w)))
  /\ env (snd (reset this o1 w)) = env (snd (reset this o2 w))
  /\ trace (snd (reset this o1 w)) = trace (snd (reset this o2 w)).
Proof.
  split; [|split; [|split]].
  - intros key value ttl.
    destruct (JSON_stringify value) as [err|s] eqn:Hs.
    + now rewrite !(set_unencodable this key value ttl _ w err Hs).
    + destruct (redis_set (client this) key s (expiry this ttl) (env w)) as [p e'] eqn:H.
      now rewrite !(set_run this key value ttl _ w s p e' Hs H).
  - intros key. unfold delKey. run.
    destruct (debug this); simpl;
      destruct (redis_del (client this) [key] (env w)) as [[n|e] e'];
      destruct (useFireAndForget this o1); destruct (useFireAndForget this o2);
      simpl; auto.
  - intros keys. unfold delKeys. destruct keys as [|k keys]; [auto|]. run.
    destruct (debug this); simpl; destruct (too_many (k :: keys)); simpl; auto;
      destruct (redis_del (client this) (k :: keys) (env w)) as [[n|e] e'];
      destruct (useFireAndForget this o1); destruct (useFireAndForget this o2);
      simpl; auto.
  - unfold reset. run.
    destruct (debug this); simpl;
      destruct (redis_flushdb (client this) (env w)) as [[[]|e] e'];
      destruct (useFireAndForget this o1); destruct (useFireAndForget this o2);
      simpl; auto.
Qed.

(** One key can always be spread. *)
Lemma one_key_fits (key : string) : too_many [key] = false.
Proof. unfold too_many. simpl. apply Z.ltb_ge. pose proof (Pos2Z.is_pos max_arguments). lia. Qed.

(** X4: [delKey key] and [delKeys [key]] are the same operation: same
    outcome, same DEL command, same connection state. *)
Theorem delKey_is_delKeys_of_one (key : string) (options : option CacheOperationOptions)
    (w : World Env) :
  fst (delKey this key options w) = fst (delKeys this [key] options w)
  /\ env (snd (delKey this key options w)) = env (snd (delKeys this [key] options w))
  /\ trace (snd (delKey this key options w)) = trace (snd (delKeys this [key] options w)).
Proof.
  unfold delKey, delKeys. run. rewrite one_key_fits.
  destruct (debug this); simpl;
    destruct (redis_del (client this) [key] (env w)) as [[n|e] e'];
    destruct (useFireAndForget this options); simpl; auto.
Qed.

End WritingMore.

(** ** Reading and invalidation *)

Section ReadingMore.
Context {Env : Type} {J : Json}.
Variable this : RedisCacheService Env.

(** X5: Whatever the store answers, [get] sends one GET for the key and
    nothing else, and leaves the connection as that GET left it; when GET
    is rejected, the error is thrown and logged once. *)
Theorem get_only_reads (key : string) (w : World Env) :
  trace (snd (get this key w)) = EvGet key :: trace w
  /\ env (snd (get this key w)) = snd (redis_get (client this) key (env w))
  /\ (forall e e1,
        redis_get (client this) key (env w) = (Rejected e, e1) ->
        fst (get this key w) = Thrown e
        /\ logs (snd (get this key w))
           = error_line ("Error getting key " +:+ key +:+ ":") e :: logs w).
Proof.
  unfold get. run.
  destruct (redis_get (client this) key (env w)) as [[[s|]|e] e1]; simpl.
  - destruct (debug this); simpl; destruct (JSON_parse s); simpl;
      (split; [reflexivity | split; [reflexivity | intros ? ? H; discriminate H]]).
  - destruct (debug this); simpl;
      (split; [reflexivity | split; [reflexivity | intros ? ? H; discriminate H]]).
  - split; [reflexivity | split; [reflexivity |]].
    intros e0 e2 H. inversion H; subst. split; reflexivity.
Qed.

(** X6: Unless GET answers that the key is absent, [getOrSet] is [get]: same
    outcome, same single GET, same connection state, and the compute
    function is not called. *)
Theorem getOrSet_is_get_unless_absent (key : string) (fn : Env -> Settled Value * Env)
    (ttl : option JsNumber) (w : World Env) :
  fst (redis_get (client this) key (env w)) <> Fulfilled None ->
  fst (getOrSet this key fn ttl w) = fst (get this key w)
  /\ env (snd (getOrSet this key fn ttl w)) = env (snd (get this key w))
  /\ trace (snd (getOrSet this key fn ttl w)) = trace (snd (get this key w)).
Proof.
  intros Hne. unfold getOrSet, get. run.
  destruct (redis_get (client this) key (env w)) as [[[s|]|e] e1]; simpl in *.
  - destruct (debug this); simpl; destruct (JSON_parse s); simpl; auto.
  - now destruct Hne.
  - auto.
Qed.

(** X7: After a miss that was filled (the store acknowledged the SET and
    answers GET with what it acknowledged), the next [getOrSet] on the key
    is a hit: it returns the decoded value and calls no compute function,
    whichever function and TTL it is given. *)
Theorem getOrSet_again_does_not_compute (key : string)
    (fn : Env -> Settled Value * Env) (ttl : option JsNumber) (w : World Env)
    (e1 e2 e3 : Env) (v v' : Value) (s : string) :
  redis_get (client this) key (env w) = (Fulfilled None, e1) ->
  fn e1 = (Fulfilled v, e2) ->
  JSON_stringify v = inr s ->
  JSON_parse s = inr v' ->
  redis_set (client this) key s (expiry this ttl) e2 = (Fulfilled tt, e3) ->
  fst (redis_get (client this) key e3) = Fulfilled (Some s) ->
  fst (getOrSet this key fn ttl w) = Returned v
  /\ forall fn' ttl',
       fst (getOrSet this key fn' ttl' (snd (getOrSet this key fn ttl w))) = Returned v'
       /\ computes (trace (snd (getOrSet this key fn' ttl'
                                  (snd (getOrSet this key fn ttl w)))))
          = S (computes (trace w)).
Proof.
  intros Hget Hfn Hs Hp Hset Hlaw.
  assert (Hfirst : exists l,
             getOrSet this key fn ttl w
             = (Returned v,
                mkWorld e3 (EvSet key s (expiry this ttl) :: EvCompute :: EvGet key :: trace w)
                  l)).
  { unfold getOrSet. run. rewrite Hget.
    destruct (debug this); simpl; rewrite Hfn; simpl;
      repeat match goal with
             | |- context [set this key v ttl None ?W] =>
                 rewrite (set_run this key v ttl None W s (Fulfilled tt) e3 Hs Hset)
             end; simpl;
      destruct (fireAndForget this); simpl; eauto. }
  destruct Hfirst as [l Hfirst]. rewrite Hfirst. split; [reflexivity|].
  intros fn' ttl'. unfold getOrSet. run.
  destruct (redis_get (client this) key e3) as [q e4]; simpl in Hlaw; subst q; simpl.
  destruct (debug this); simpl; rewrite Hp; simpl; auto.
Qed.

(** One run of [delKey]: DEL is issued once; the answer is awaited in
    blocking mode and replaced by 0 in fire-and-forget mode. *)
Lemma delKey_run (key : string) (options : option CacheOperationOptions)
    (w : World Env) (p : Settled Z) (e' : Env) :
  redis_del (client this) [key] (env w) = (p, e') ->
  exists l,
    delKey this key options w
    = (if useFireAndForget this options then Returned 0 else awaited p,
       mkWorld e' (EvDel [key] :: trace w) l).
Proof.
  intros H. unfold delKey. run.
  destruct (debug this); simpl; rewrite H;
    destruct (useFireAndForget this options); destruct p as [n|e]; simpl; eauto.
Qed.

(** One run of [reset]: FLUSHDB is issued once. *)
Lemma reset_run (options : option CacheOperationOptions) (w : World Env)
    (p : Settled unit) (e' : Env) :
  redis_flushdb (client this) (env w) = (p, e') ->
  exists l,
    reset this options w
    = (if useFireAndForget this options then Returned tt else awaited p,
       mkWorld e' (EvFlushdb :: trace w) l).
Proof.
  intros H. unfold reset. run.
  destruct (debug this); simpl; rewrite H;
    destruct (useFireAndForget this options); destruct p as [[]|e]; simpl; eauto.
Qed.

(** [get] in a world whose store answers "absent". *)
Lemma get_absent (key : string) (w : World Env) :
  fst (redis_get (client this) key (env w)) = Fulfilled None ->
  fst (get this key w) = Returned null.
Proof.
  intros H. unfold get. run.
  destruct (redis_get (client this) key (env w)) as [q e2]; simpl in H; subst q.
  simpl. destruct (debug this); reflexivity.
Qed.

(** X8: Once DEL for the key was acknowledged (as a returning blocking
    [delKey] guarantees) by a store that then answers GET with "absent",
    [get] returns [null]. *)
Theorem get_after_delKey_is_null (key : string) (options : option CacheOperationOptions)
    (w : World Env) (n : Z) (w1 : World Env) :
  (forall m e', redis_del (client this) [key] (env w) = (Fulfilled m, e') ->
                fst (redis_get (client this) key e') = Fulfilled None) ->
  useFireAndForget this options = false
  \/ (exists m, fst (redis_del (client this) [key] (env w)) = Fulfilled m) ->
  delKey this key options w = (Returned n, w1) ->
  fst (get this key w1) = Returned null.
Proof.
  intros Hlaw Hack Hdel.
  destruct (redis_del (client this) [key] (env w)) as [p e'] eqn:Hcmd.
  destruct (delKey_run key options w p e' Hcmd) as [l Hrun].
  rewrite Hrun in Hdel.
  assert (Hp : exists m, p = Fulfilled m).
  { destruct Hack as [Hmode | Hm]; [| exact Hm].
    rewrite Hmode in Hdel. destruct p as [m|e]; [eauto | discriminate]. }
  destruct Hp as [m ->]. inversion Hdel; subst.
  apply get_absent. simpl. exact (Hlaw m e' eq_refl).
Qed.

(** X9: Once FLUSHDB was acknowledged (as a returning blocking [reset]
    guarantees) by a store that then answers GET with "absent", [get]
    returns [null] for the key. *)
Theorem get_after_reset_is_null (key : string) (options : option CacheOperationOptions)
    (w w1 : World Env) :
  (forall e', redis_flushdb (client this) (env w) = (Fulfilled tt, e') ->
              fst (redis_get (client this) key e') = Fulfilled None) ->
  useFireAndForget this options = false
  \/ fst (redis_flushdb (client this) (env w)) = Fulfilled tt ->
  reset this options w = (Returned tt, w1) ->
  fst (get this key w1) = Returned null.
Proof.
  intros Hlaw Hack Hreset.
  destruct (redis_flushdb (client this) (env w)) as [p e'] eqn:Hcmd.
  destruct (reset_run options w p e' Hcmd) as [l Hrun].
  rewrite Hrun in Hreset.
  assert (Hp : p = Fulfilled tt).
  { destruct Hack as [Hmode | Hm]; [| exact Hm].
    rewrite Hmode in Hreset. destruct p as [[]|e]; [reflexivity | discriminate]. }
  subst p. inversion Hreset; subst.
  apply get_absent. simpl. exact (Hlaw e' eq_refl).
Qed.

End ReadingMore.

(** ** Scanning: what is sent, and when it stops *)

Section ScanningMore.
Context {Env : Type} {G : Engine}.
Variable this : RedisCacheService Env.

(** Whatever the store answers and however much fuel there is, the loop
    sends SCAN commands for the full pattern and nothing else, and writes
    no log line. *)
Lemma scanLoop_only_scans (keyPrefix fullPattern : string) (fuel : nat) :
  forall (cursor : string) (allKeys : list string) (e : Env) (tr : list Event)
         (l : list LogEntry),
  exists c e' dt,
    scanLoop this fuel keyPrefix fullPattern cursor allKeys (mkWorld e tr l)
    = (c, mkWorld e' (dt ++ tr) l)
    /\ Forall (fun ev => is_scan_of fullPattern ev = true) dt.
Proof.
  induction fuel as [|fuel IH]; intros cursor allKeys e tr l.
  - exists OutOfFuel, e, []. split; [reflexivity | constructor].
  - cbn [scanLoop]. run.
    destruct (redis_scan (client this) cursor fullPattern 100 e) as [[[next keys]|err] e1];
      simpl.
    + destruct (String.eqb next "0"); simpl.
      * exists (Returned (if (0 <? length keys)%nat
                          then allKeys ++ keysWithoutPrefix keyPrefix keys
                          else allKeys)), e1, [EvScan cursor fullPattern 100].
        split; [reflexivity |].
        constructor; [| constructor]. simpl. now rewrite String.eqb_refl.
      * destruct (IH next (if (0 <? length keys)%nat
                           then allKeys ++ keysWithoutPrefix keyPrefix keys
                           else allKeys) e1 (EvScan cursor fullPattern 100 :: tr) l)
          as (c & e' & dt & Hrun & Hdt).
        exists c, e', (dt ++ [EvScan cursor fullPattern 100]).
        split; [rewrite Hrun; now rewrite <- app_assoc |].
        apply Forall_app. split; [exact Hdt |].
        constructor; [| constructor]. simpl. now rewrite String.eqb_refl.
    + exists (Thrown err), e1, [EvScan cursor fullPattern 100].
      split; [reflexivity |].
      constructor; [| constructor]. simpl. now rewrite String.eqb_refl.
Qed.

(** X10: [getKeysByPattern] is read-only: in every run, complete, failed or cut
    short, all it sends are SCAN commands for the prefixed pattern with
    the count hint 100. *)
Theorem getKeysByPattern_only_scans (fuel : nat) (pattern : string) (w : World Env) :
  exists dt,
    trace (snd (getKeysByPattern this fuel pattern w)) = dt ++ trace w
    /\ Forall (fun ev =>
                 is_scan_of (default "" (keyPrefix (client this)) +:+ pattern) ev = true) dt.
Proof.
  destruct w as [e tr l].
  destruct (scanLoop_only_scans (default "" (keyPrefix (client this)))
              (default "" (keyPrefix (client this)) +:+ pattern) fuel "0" [] e tr l)
    as (c & e' & dt & Hrun & Hdt).
  exists dt. split; [| exact Hdt].
  unfold getKeysByPattern. run. rewrite Hrun.
  destruct c as [ks|err|]; simpl; [destruct (debug this) |..]; reflexivity.
Qed.

(** X11: DEL is never sent without keys.  [delKeys] on an empty list
    returns 0 and touches nothing; on a list the engine can spread it sends
    one DEL with exactly that list; on a longer list it throws a
    [RangeError], in either mode, and sends nothing.  [delPattern], in
    every run, sends its SCAN commands and then at most one DEL, which
    carries at least one key. *)
Theorem del_is_never_sent_without_keys :
  (forall options w, delKeys this [] options w = (Returned 0, w))
  /\ (forall keys options w, keys <> [] -> too_many keys = false ->
        trace (snd (delKeys this keys options w)) = EvDel keys :: trace w)
  /\ (forall keys options w, too_many keys = true ->
        fst (delKeys this keys options w) = Thrown range_error
        /\ env (snd (delKeys this keys options w)) = env w
        /\ trace (snd (delKeys this keys options w)) = trace w)
  /\ (forall fuel pattern w,
        exists dt,
          Forall (fun ev =>
                    is_scan_of (default "" (keyPrefix (client this)) +:+ pattern) ev = true)
            dt
          /\ (trace (snd (delPattern this fuel pattern w)) = dt ++ trace w
              \/ exists ks, ks <> []
                   /\ trace (snd (delPattern this fuel pattern w))
                      = EvDel ks :: dt ++ trace w)).
Proof.
  split; [reflexivity | split; [| split]].
  - intros keys options w Hne Hfits. destruct keys as [|k keys]; [now destruct Hne |].
    unfold delKeys. run.
    destruct (debug this); simpl; rewrite Hfits; simpl;
      destruct (redis_del (client this) (k :: keys) (env w)) as [[n|e] e'];
      destruct (useFireAndForget this options); reflexivity.
  - intros keys options w Hover. destruct keys as [|k keys]; [discriminate Hover |].
    unfold delKeys. run.
    destruct (debug this); simpl; rewrite Hover; simpl; auto.
  - intros fuel pattern [e tr l].
    destruct (scanLoop_only_scans (default "" (keyPrefix (client this)))
                (default "" (keyPrefix (client this)) +:+ pattern) fuel "0" [] e tr l)
      as (c & e' & dt & Hrun & Hdt).
    exists dt. split; [exact Hdt |].
    unfold delPattern. run. rewrite Hrun.
    destruct c as [ks|err|]; simpl; [| left; reflexivity | left; reflexivity].
    destruct ks as [|k ks]; simpl.
    + left. destruct (debug this); reflexivity.
    + destruct (too_many (k :: ks)); simpl; [left; reflexivity |].
      right. exists (k :: ks). split; [discriminate |].
      destruct (redis_del (client this) (k :: ks) e') as [[n|err] e2];
        destruct (fireAndForget this); destruct (debug this); reflexivity.
Qed.

(** The loop on a scan whose last call is rejected. *)
Lemma scanLoop_fails (keyPrefix fullPattern : string) (e : Env) (cursor : string)
    (pages : list (string * list string)) (err : JsError) (e' : Env) :
  ScanFails (client this) fullPattern e cursor pages err e' ->
  forall fuel allKeys tr l,
    (length pages < fuel)%nat ->
    scanLoop this fuel keyPrefix fullPattern cursor allKeys (mkWorld e tr l)
    = (Thrown err,
       mkWorld e' (EvScan (last_cursor cursor pages) fullPattern 100
                   :: rev (scan_calls fullPattern cursor pages) ++ tr) l).
Proof.
  induction 1 as [e cursor err e' Hscan
                 | e cursor next keys e1 pages err e' Hscan Hne _ IH];
    intros fuel allKeys tr l Hfuel.
  - destruct fuel as [|fuel]; [simpl in Hfuel; lia |].
    cbn [scanLoop]. run. rewrite Hscan. reflexivity.
  - destruct fuel as [|fuel]; [simpl in Hfuel; lia |].
    rewrite (scanLoop_step this _ _ _ _ _ _ _ _ _ _ _ Hscan).
    apply String.eqb_neq in Hne. rewrite Hne.
    rewrite IH by (simpl in Hfuel; lia).
    simpl. now rewrite <- app_assoc.
Qed.

(** X12: When a SCAN is rejected, after any number of pages, the whole scan is
    given up: [getKeysByPattern] throws the error instead of returning the
    keys found so far, and [delPattern] throws it without sending a DEL,
    so nothing found so far is deleted. *)
Theorem failed_scan_deletes_nothing (fuel : nat) (pattern : string)
    (pages : list (string * list string)) (err : JsError) (e' : Env) (w : World Env) :
  ScanFails (client this) (default "" (keyPrefix (client this)) +:+ pattern)
    (env w) "0" pages err e' ->
  (length pages < fuel)%nat ->
  fst (getKeysByPattern this fuel pattern w) = Thrown err
  /\ fst (delPattern this fuel pattern w) = Thrown err
  /\ env (snd (delPattern this fuel pattern w)) = e'
  /\ trace (snd (delPattern this fuel pattern w))
     = EvScan (last_cursor "0" pages) (default "" (keyPrefix (client this)) +:+ pattern) 100
       :: rev (scan_calls (default "" (keyPrefix (client this)) +:+ pattern) "0" pages)
       ++ trace w.
Proof.
  intros Hfails Hfuel. destruct w as [e tr l]. simpl in Hfails.
  pose proof (fun allKeys =>
                scanLoop_fails (default "" (keyPrefix (client this))) _ _ _ _ _ _ Hfails
                  fuel allKeys tr l Hfuel) as Hloop.
  unfold getKeysByPattern, delPattern. run. rewrite !Hloop. simpl. auto.
Qed.

(** X13: Prefix transparency: when every key the store returns carries the
    configured prefix, [getKeysByPattern] returns the keys without it, in
    the order scanned; without a configured prefix it returns the keys as
    they are. *)
Theorem getKeysByPattern_returns_bare_keys (fuel : nat) (pattern : string)
    (bare : list (string * list string)) (e' : Env) (w : World Env) :
  Scans (client this) (default "" (keyPrefix (client this)) +:+ pattern) (env w) "0"
    (prefixed (default "" (keyPrefix (client this))) bare) e' ->
  (length bare <= fuel)%nat ->
  fst (getKeysByPattern this fuel pattern w) = Returned (bare_keys bare).
Proof.
  intros Hscans Hfuel. destruct w as [e tr l]. simpl in Hscans.
  assert (Hlen : (length (prefixed (default "" (keyPrefix (client this))) bare) <= fuel)%nat)
    by (unfold prefixed; now rewrite length_map).
  pose proof (scanLoop_complete this (default "" (keyPrefix (client this))) _ _ _ _ _ Hscans
                fuel [] tr l Hlen) as Hloop.
  assert (Hg : gathered (default "" (keyPrefix (client this)))
                 (prefixed (default "" (keyPrefix (client this))) bare)
               = bare_keys bare).
  { clear. unfold bare_keys, prefixed.
    induction bare as [|[next keys] bare IH]; [reflexivity |].
    simpl. rewrite IH. now rewrite keysWithoutPrefix_leading. }
  unfold getKeysByPattern. run. rewrite Hloop, Hg. simpl.
  destruct (debug this); reflexivity.
Qed.

End ScanningMore.

(** ** Several patterns: the count *)

Section PatternsMore.
Context {Env : Type} {G : Engine}.
Variable this : RedisCacheService Env.

(** The loop adds the counts to whatever total it starts from. *)
Lemma delPatterns_loop_sweeps (fuel : nat) (patterns : list string) (w : World Env)
    (counts : list Z) (w' : World Env) :
  Sweeps this fuel patterns w counts w' ->
  forall acc, delPatterns_loop this fuel patterns acc w = (Returned (acc + total counts), w').
Proof.
  induction 1 as [w | pattern rest w w1 w2 deleted counts Hdel _ IH]; intros acc.
  - simpl. unfold ret. now rewrite Z.add_0_r.
  - simpl. unfold bind. rewrite Hdel. rewrite IH. now rewrite Z.add_assoc.
Qed.

(** X14: When [delPattern] succeeds on every pattern, [delPatterns] returns the
    sum of the counts it returned, and leaves the connection and the
    commands sent as the last [delPattern] left them.  (Under a
    fire-and-forget default every count is 0, and so is the sum.) *)
Theorem delPatterns_returns_the_sum (fuel : nat) (patterns : list string)
    (w : World Env) (counts : list Z) (w' : World Env) :
  Sweeps this fuel patterns (delPatterns_entry this patterns w) counts w' ->
  fst (delPatterns this fuel patterns w) = Returned (total counts)
  /\ env (snd (delPatterns this fuel patterns w)) = env w'
  /\ trace (snd (delPatterns this fuel patterns w)) = trace w'.
Proof.
  intros Hsweeps.
  destruct (length patterns =? 0)%nat eqn:Hlen.
  - destruct patterns; [| discriminate Hlen].
    inversion Hsweeps; subst. unfold delPatterns_entry, debug_log.
    destruct (debug this); simpl; auto.
  - pose proof (delPatterns_loop_sweeps fuel _ _ _ _ Hsweeps 0) as Hloop.
    unfold delPatterns_entry, debug_log in Hloop.
    unfold delPatterns. rewrite Hlen. unfold debug_log.
    destruct (debug this); run;
      unfold ret, logger_debug, write_log in Hloop; simpl in Hloop;
      rewrite Hloop; simpl; auto.
Qed.

End PatternsMore.

(** ** Statistics: what a snapshot means *)

Section StatisticsMore.
Context {Env : Type}.
Variable this : RedisCacheService Env.

(** X15: A snapshot with [connected: true] means that the client was ready and
    that DBSIZE and INFO were both answered: it carries the key count
    DBSIZE gave, the three fields read from the INFO text, and no error.
    A snapshot with [connected: false] always has key count 0, an error
    message and no memory field. *)
Theorem getStats_connected_means_answered (w : World Env) (s : Stats) :
  fst (getStats this w) = Returned s ->
  (connected s = true ->
     status (client this) (env w) = "ready"
     /\ exists n e1 text e2,
          redis_dbsize (client this) (env w) = (Fulfilled n, e1)
          /\ redis_info (client this) "memory" e1 = (Fulfilled text, e2)
          /\ s = {| connected := true; keyCount := n;
                    memoryUsed := parseMemoryInfo text "used_memory_human";
                    memoryPeak := parseMemoryInfo text "used_memory_peak_human";
                    memoryFragmentationRatio :=
                      parseMemoryInfo text "mem_fragmentation_ratio";
                    error := None |}
          /\ trace (snd (getStats this w)) = EvInfo "memory" :: EvDbsize :: trace w)
  /\ (connected s = false ->
      exists msg, s = failed_snapshot msg).
Proof.
  unfold getStats. run.
  destruct (String.eqb (status (client this) (env w)) "ready") eqn:Hs; simpl.
  - apply String.eqb_eq in Hs.
    destruct (redis_dbsize (client this) (env w)) as [[n|e] e1] eqn:Hd; simpl.
    + destruct (redis_info (client this) "memory" e1) as [[text|e] e2] eqn:Hi; simpl.
      * destruct (debug this); simpl; intros H; inversion H; subst; simpl;
          (split; [intros _ | discriminate]);
          (split; [exact Hs |]); exists n, e1, text, e2; auto.
      * intros H; inversion H; subst; simpl.
        split; [discriminate | intros _; eexists; reflexivity].
    + intros H; inversion H; subst; simpl.
      split; [discriminate | intros _; eexists; reflexivity].
  - intros H; inversion H; subst; simpl.
    split; [discriminate | intros _; eexists; reflexivity].
Qed.

End StatisticsMore.

(** ** Reading the INFO text *)

Section InfoText.

Lemma append_cons (x : ascii) (a b : string) : String x a +:+ b = String x (a +:+ b).
Proof. reflexivity. Qed.

Lemma append_empty (b : string) : "" +:+ b = b.
Proof. reflexivity. Qed.

Lemma append_assoc (a b c : string) : (a +:+ b) +:+ c = a +:+ (b +:+ c).
Proof.
  induction a as [|x a IH]; [reflexivity |].
  rewrite !append_cons. now rewrite IH.
Qed.

Lemma startsWith_split (p s : string) :
  JsString.startsWith p s = true -> s = p +:+ JsString.slice (String.length p) s.
Proof.
  unfold JsString.startsWith. revert s.
  induction p as [|c p IH]; intros s; simpl.
  - reflexivity.
  - destruct s as [|d s]; simpl; [discriminate |].
    destruct (Ascii.ascii_dec c d) as [->|]; [| discriminate].
    intros H. rewrite append_cons. f_equal. now apply IH.
Qed.

Lemma dot_run_nonempty (s : string) :
  JsString.dot_run s <> ""
  <-> exists c rest, s = String c rest /\ JsString.is_line_terminator c = false.
Proof.
  destruct s as [|c rest]; simpl.
  - split; [intros H; now destruct H | intros (c & rest & H & _); discriminate].
  - destruct (JsString.is_line_terminator c) eqn:Hc.
    + split; [intros H; now destruct H |].
      intros (c' & rest' & H & Hc'). inversion H; subst. congruence.
    + split; [intros _; eauto | discriminate].
Qed.

(** A match of [key:(.+)] at the head of [s]. *)
Lemma match_here (lit s : string) :
  (JsString.startsWith (lit +:+ ":") s = true
   /\ JsString.dot_run (JsString.slice (String.length (lit +:+ ":")) s) <> "")
  <-> exists c rest, s = lit +:+ ":" +:+ String c rest
                     /\ JsString.is_line_terminator c = false.
Proof.
  split.
  - intros [Hstart Hrun]. apply startsWith_split in Hstart.
    apply dot_run_nonempty in Hrun. destruct Hrun as (c & rest & Hrest & Hc).
    exists c, rest. split; [| exact Hc].
    rewrite Hrest in Hstart. rewrite Hstart. apply append_assoc.
  - intros (c & rest & -> & Hc). rewrite <- append_assoc.
    rewrite startsWith_append, slice_append. split; [reflexivity |].
    apply dot_run_nonempty. eauto.
Qed.

Lemma match_after_colon_unfold (lit s : string) :
  JsString.match_after_colon lit s =
  match (if JsString.startsWith (lit +:+ ":") s
         then match JsString.dot_run (JsString.slice (String.length (lit +:+ ":")) s) with
              | EmptyString => None
              | cap => Some cap
              end
         else None) with
  | Some cap => Some cap
  | None => match s with
            | EmptyString => None
            | String _ s' => JsString.match_after_colon lit s'
            end
  end.
Proof. destruct s; reflexivity. Qed.

Lemma match_after_colon_none (lit s : string) :
  JsString.match_after_colon lit s = None
  <-> ~ exists pre c rest, s = pre +:+ lit +:+ ":" +:+ String c rest
                           /\ JsString.is_line_terminator c = false.
Proof.
  induction s as [|a s IH].
  - rewrite match_after_colon_unfold. split.
    + intros _ (pre & c & rest & H & _).
      destruct pre as [|b pre]; [| rewrite append_cons in H; discriminate].
      rewrite append_empty in H.
      destruct lit; [rewrite append_empty in H | rewrite append_cons in H];
        discriminate.
    + intros _.
      destruct (JsString.startsWith (lit +:+ ":") "") eqn:Hs; [| reflexivity].
      apply startsWith_split in Hs.
      destruct lit; [rewrite append_empty in Hs | rewrite !append_cons in Hs];
        discriminate.
  - rewrite match_after_colon_unfold.
    destruct (JsString.startsWith (lit +:+ ":") (String a s)) eqn:Hs.
    + destruct (JsString.dot_run (JsString.slice (String.length (lit +:+ ":")) (String a s)))
        as [|c0 r0] eqn:Hrun.
      * rewrite IH. split.
        -- intros Hnone (pre & c & rest & H & Hc).
           destruct pre as [|b pre].
           ++ rewrite append_empty in H.
              assert (Hm : JsString.dot_run
                             (JsString.slice (String.length (lit +:+ ":")) (String a s))
                           <> "").
              { apply (proj2 (match_here lit (String a s))). eauto. }
              now rewrite Hrun in Hm.
           ++ rewrite append_cons in H. inversion H; subst. apply Hnone. eauto.
        -- intros Hnone (pre & c & rest & H & Hc). apply Hnone.
           exists (String a pre), c, rest. rewrite append_cons. now rewrite H.
      * split; [discriminate |]. intros Hnone. exfalso. apply Hnone.
        destruct (proj1 (match_here lit (String a s))) as (c & rest & H & Hc).
        { split; [exact Hs | rewrite Hrun; discriminate]. }
        exists "", c, rest. rewrite append_empty. split; assumption.
    + rewrite IH. split.
      * intros Hnone (pre & c & rest & H & Hc).
        destruct pre as [|b pre].
        -- rewrite append_empty in H.
           assert (Hm : JsString.startsWith (lit +:+ ":") (String a s) = true).
           { apply (proj2 (match_here lit (String a s))). eauto. }
           congruence.
        -- rewrite append_cons in H. inversion H; subst. apply Hnone. eauto.
      * intros Hnone (pre & c & rest & H & Hc). apply Hnone.
        exists (String a pre), c, rest. rewrite append_cons. now rewrite H.
Qed.

(** X16: For a key without regular-expression operators, a field is
    reported absent exactly when the text nowhere has the key, a colon and
    then a character other than a line terminator: a key that only occurs
    without a colon, or with nothing after the colon on its line, does not
    count.  The three keys [getStats] asks for are such keys. *)
Theorem parseMemoryInfo_absent_iff (info key : string) :
  regex_literal key = true ->
  (parseMemoryInfo info key = None
   <-> ~ exists pre c rest, info = pre +:+ key +:+ ":" +:+ String c rest
                            /\ JsString.is_line_terminator c = false)
  /\ regex_literal "used_memory_human" = true
  /\ regex_literal "used_memory_peak_human" = true
  /\ regex_literal "mem_fragmentation_ratio" = true.
Proof.
  intros _. split; [| repeat split].
  unfold parseMemoryInfo. rewrite <- match_after_colon_none.
  destruct (JsString.match_after_colon key info); split; congruence.
Qed.

End InfoText.

(** ** The module: what is provided *)

Section WiringFacts.
Import RedisCacheModule.
Context {Class Factory Import Dep : Type}.

(** X19: Every module [forRoot] or [forRootAsync] builds provides the options
    token exactly once and the service exactly once, and exports the
    service alone.  In [forRootAsync] a user factory takes precedence: it
    is the options provider and no class is registered; the class of
    [useClass] is registered as a provider exactly when neither
    [useExisting] nor [useFactory] is given. *)
Theorem module_provides_options_once (root : RootOptions)
    (options : AsyncOptions Class Factory Import Dep) :
  how_many provides_options (providers (@forRoot Class Factory Import Dep root)) = 1%nat
  /\ how_many is_service (providers (@forRoot Class Factory Import Dep root)) = 1%nat
  /\ exports (@forRoot Class Factory Import Dep root) = [Service]
  /\ providers (@forRoot Class Factory Import Dep root) = [OptionsValue root; Service]
  /\ how_many provides_options (providers (forRootAsync options)) = 1%nat
  /\ how_many is_service (providers (forRootAsync options)) = 1%nat
  /\ exports (forRootAsync options) = [Service]
  /\ (forall f, useFactory options = Some f ->
        providers (forRootAsync options)
        = [OptionsFactoryProvider (UserFactory f)
             (map DepToken (default [] (inject options)));
           Service])
  /\ (In (ClassProvider (useClass options) (useClass options))
         (providers (forRootAsync options))
      <-> useExisting options = None /\ useFactory options = None).
Proof.
  destruct options as [imp ex cl fa inj glob]; simpl.
  unfold forRootAsync, createAsyncProviders, createAsyncOptionsProvider; simpl.
  do 4 (split; [reflexivity |]).
  split; [destruct ex, fa; reflexivity |].
  split; [destruct ex, fa; reflexivity |].
  split; [reflexivity |].
  split.
  - intros f Hf. subst fa. destruct ex; reflexivity.
  - destruct ex as [x|], fa as [f|]; simpl; split;
      try (intros [H | [H | [H | H]]]; try discriminate H; try contradiction);
      try (intros [H | [H | H]]; try discriminate H; try contradiction);
      try (intros [H1 H2]; discriminate);
      try (intros _; right; left; reflexivity);
      try (split; reflexivity).
Qed.

End WiringFacts.

(** ** Errors: thrown means logged, detached means not thrown *)

Section ErrorsMore.
Context {Env : Type} {J : Json} {G : Engine}.
Variable this : RedisCacheService Env.

(** A body wrapped in [try { ... } catch (error) { log; throw error }]. *)
Lemma try_catch_logged {A} (body : M Env A) (msg : string) (w : World Env) (e : JsError) :
  fst (try_catch body (fun error => logger_error msg error ;; throw error) w) = Thrown e ->
  logs (snd (try_catch body (fun error => logger_error msg error ;; throw error) w))
  = error_line msg e :: logs (snd (body w)).
Proof.
  unfold try_catch. run.
  destruct (body w) as [[a|e'|] w']; simpl; intros H; inversion H; subst; reflexivity.
Qed.

(** X17: No method throws an error it has not logged: whenever one of the nine
    methods throws, the last line of the log is an error line carrying the
    thrown error. *)
Theorem thrown_errors_are_logged (w : World Env) (e : JsError) :
  (forall key,
      fst (get this key w) = Thrown e ->
      exists msg l, logs (snd (get this key w)) = error_line msg e :: l)
  /\ (forall key value ttl options,
      fst (set this key value ttl options w) = Thrown e ->
      exists msg l, logs (snd (set this key value ttl options w)) = error_line msg e :: l)
  /\ (forall key fn ttl,
      fst (getOrSet this key fn ttl w) = Thrown e ->
      exists msg l, logs (snd (getOrSet this key fn ttl w)) = error_line msg e :: l)
  /\ (forall key options,
      fst (delKey this key options w) = Thrown e ->
      exists msg l, logs (snd (delKey this key options w)) = error_line msg e :: l)
  /\ (forall keys options,
      fst (delKeys this keys options w) = Thrown e ->
      exists msg l, logs (snd (delKeys this keys options w)) = error_line msg e :: l)
  /\ (forall fuel pattern,
      fst (delPattern this fuel pattern w) = Thrown e ->
      exists msg l, logs (snd (delPattern this fuel pattern w)) = error_line msg e :: l)
  /\ (forall fuel patterns,
      fst (delPatterns this fuel patterns w) = Thrown e ->
      exists msg l, logs (snd (delPatterns this fuel patterns w)) = error_line msg e :: l)
  /\ (forall fuel pattern,
      fst (getKeysByPattern this fuel pattern w) = Thrown e ->
      exists msg l,
        logs (snd (getKeysByPattern this fuel pattern w)) = error_line msg e :: l)
  /\ (forall options,
      fst (reset this options w) = Thrown e ->
      exists msg l, logs (snd (reset this options w)) = error_line msg e :: l).
Proof.
  repeat match goal with |- _ /\ _ => split end.
  - intros key H. do 2 eexists. exact (try_catch_logged _ _ w e H).
  - intros key value ttl options H. do 2 eexists. exact (try_catch_logged _ _ w e H).
  - intros key fn ttl H. do 2 eexists. exact (try_catch_logged _ _ w e H).
  - intros key options H. do 2 eexists. exact (try_catch_logged _ _ w e H).
  - intros keys options H. destruct keys as [|k keys]; [discriminate H |].
    do 2 eexists. exact (try_catch_logged _ _ w e H).
  - intros fuel pattern H. do 2 eexists. exact (try_catch_logged _ _ w e H).
  - intros fuel patterns H. destruct patterns as [|p ps]; [discriminate H |].
    do 2 eexists. exact (try_catch_logged _ _ w e H).
  - intros fuel pattern H. do 2 eexists. exact (try_catch_logged _ _ w e H).
  - intros options H. do 2 eexists. exact (try_catch_logged _ _ w e H).
Qed.

(** X18: In fire-and-forget mode a rejected command is never thrown:
    [delKey] returns 0, [delKeys] returns 0 for every list the engine can
    spread, and [reset] returns, whatever the store answers, and so does
    [set] for a value that encodes.  What is thrown in this mode as well is
    what happens before the command is sent: a key list too long to
    spread makes [delKeys] throw a [RangeError].  [delPattern] under a
    fire-and-forget default detaches the DEL only: it still waits for its
    SCAN commands and throws when one is rejected. *)
Theorem fire_and_forget_does_not_throw_store_errors
    (options : option CacheOperationOptions) (w : World Env) :
  useFireAndForget this options = true ->
  (forall key, fst (delKey this key options w) = Returned 0)
  /\ (forall keys, too_many keys = false -> fst (delKeys this keys options w) = Returned 0)
  /\ (forall keys, too_many keys = true ->
        fst (delKeys this keys options w) = Thrown range_error)
  /\ fst (reset this options w) = Returned tt
  /\ (forall key value ttl s,
        JSON_stringify value = inr s ->
        fst (set this key value ttl options w) = Returned tt)
  /\ (forall fuel pattern err e',
        fireAndForget this = true ->
        redis_scan (client this) "0" (default "" (keyPrefix (client this)) +:+ pattern) 100
          (env w) = (Rejected err, e') ->
        fst (delPattern this (S fuel) pattern w) = Thrown err).
Proof.
  intros Hmode. repeat match goal with |- _ /\ _ => split end.
  - intros key. unfold delKey. run. rewrite Hmode.
    destruct (debug this); simpl;
      destruct (redis_del (client this) [key] (env w)) as [[n|e] e']; reflexivity.
  - intros keys Hfits. unfold delKeys. destruct keys as [|k keys]; [reflexivity |]. run.
    rewrite Hmode.
    destruct (debug this); simpl; rewrite Hfits; simpl;
      destruct (redis_del (client this) (k :: keys) (env w)) as [[n|e] e']; reflexivity.
  - intros keys Hover. unfold delKeys. destruct keys as [|k keys]; [discriminate Hover |].
    run. destruct (debug this); simpl; rewrite Hover; reflexivity.
  - unfold reset. run. rewrite Hmode.
    destruct (debug this); simpl;
      destruct (redis_flushdb (client this) (env w)) as [[[]|e] e']; reflexivity.
  - intros key value ttl s Hs.
    destruct (redis_set (client this) key s (expiry this ttl) (env w)) as [p e'] eqn:H.
    rewrite (set_run this key value ttl options w s p e' Hs H). simpl.
    now rewrite Hmode.
  - intros fuel pattern err e' _ Hscan.
    unfold delPattern. cbn [scanLoop]. run. rewrite Hscan. reflexivity.
Qed.

End ErrorsMore.

(** ** The further properties on closed examples *)

Lemma set_zero_ttl_witness :
  trace (snd (set (J := MiniJson.json) TtlExample.svc "n" (MiniJson.JNum 7) (Some (JsInt 0))
                None WriteExample.primary)) = [EvSet "n" "7" None]
  /\ trace (snd (set (J := MiniJson.json) TtlExample.svc "n" (MiniJson.JNum 7) (Some JsNaN)
                   None WriteExample.primary)) = [EvSet "n" "7" None]
  /\ trace (snd (set (J := MiniJson.json) TtlExample.svc "n" (MiniJson.JNum 7) None None
                   WriteExample.primary)) = [EvSet "n" "7" (Some (JsInt 60))]
  /\ trace (snd (set (J := MiniJson.json) WriteExample.blocking "n" (MiniJson.JNum 7) None
                   None WriteExample.primary)) = [EvSet "n" "7" None]
  /\ trace (snd (set (J := MiniJson.json) TtlExample.svc "n" (MiniJson.JNum 7)
                   (Some (JsOther "0.5")) None WriteExample.primary))
     = [EvSet "n" "7" (Some (JsOther "0.5"))].
Proof.
  destruct (set_zero_ttl_means_no_expiry (J := MiniJson.json) TtlExample.svc "n"
              (MiniJson.JNum 7) None WriteExample.primary "7" eq_refl)
    as (Hfalsy & Hdefault & _ & Hgiven).
  destruct (set_zero_ttl_means_no_expiry (J := MiniJson.json) WriteExample.blocking "n"
              (MiniJson.JNum 7) None WriteExample.primary "7" eq_refl)
    as (_ & _ & Hnone & _).
  split; [apply (Hfalsy (JsInt 0)); reflexivity |].
  split; [apply (Hfalsy JsNaN); reflexivity |].
  split; [apply (Hdefault (JsInt 60)); reflexivity |].
  split; [apply Hnone; reflexivity |].
  apply (Hgiven (JsOther "0.5")). reflexivity.
Defined.

Lemma unencodable_value_witness :
  fst (set (J := BigJson.json) WriteExample.detached "n" (BigJson.JBig 7) None None
         WriteExample.primary) = Thrown BigJson.type_error
  /\ fst (getOrSet (J := BigJson.json) WriteExample.detached "n" BigJson.big None
            WriteExample.primary) = Thrown BigJson.type_error.
Proof.
  destruct (unencodable_value_is_thrown_in_either_mode (J := BigJson.json)
              WriteExample.detached "n" (BigJson.JBig 7) None WriteExample.primary
              BigJson.type_error eq_refl) as [Hset Hfill].
  split.
  - exact (proj1 (Hset None)).
  - edestruct (Hfill BigJson.big) as [Hres _];
      [vm_compute; reflexivity | vm_compute; reflexivity | exact Hres].
Defined.

Lemma get_only_reads_witness :
  fst (get (J := MiniJson.json) Flaky.svc "n" Flaky.w) = Thrown Flaky.reset_by_peer
  /\ trace (snd (get (J := MiniJson.json) Flaky.svc "n" Flaky.w)) = [EvGet "n"].
Proof.
  destruct (get_only_reads (J := MiniJson.json) Flaky.svc "n" Flaky.w)
    as (Htrace & _ & Hrejected).
  split; [| exact Htrace].
  exact (proj1 (Hrejected Flaky.reset_by_peer tt eq_refl)).
Defined.

Lemma getOrSet_is_get_witness :
  fst (getOrSet (J := MiniJson.json) WriteExample.blocking "n" WriteExample.failing None
         WriteExample.holding)
  = fst (get (J := MiniJson.json) WriteExample.blocking "n" WriteExample.holding).
Proof.
  apply (getOrSet_is_get_unless_absent (J := MiniJson.json) WriteExample.blocking "n"
           WriteExample.failing None WriteExample.holding).
  vm_compute. discriminate.
Defined.

Lemma getOrSet_again_witness :
  fst (getOrSet (J := MiniJson.json) WriteExample.blocking "n" WriteExample.failing None
         (snd (getOrSet (J := MiniJson.json) WriteExample.blocking "n" WriteExample.seven
                 (Some (JsInt 60)) WriteExample.primary)))
  = Returned (MiniJson.JNum 7).
Proof.
  edestruct (getOrSet_again_does_not_compute (J := MiniJson.json) WriteExample.blocking "n"
               WriteExample.seven (Some (JsInt 60)) WriteExample.primary) as [_ Hagain].
  - vm_compute; reflexivity.
  - vm_compute; reflexivity.
  - instantiate (1 := "7"). reflexivity.
  - instantiate (1 := MiniJson.JNum 7). reflexivity.
  - vm_compute; reflexivity.
  - vm_compute; reflexivity.
  - exact (proj1 (Hagain WriteExample.failing None)).
Defined.

Lemma get_after_delKey_witness :
  fst (get (J := MiniJson.json) WriteExample.blocking "n"
         (snd (delKey WriteExample.blocking "n" None WriteExample.holding)))
  = Returned MiniJson.JNull.
Proof.
  apply (get_after_delKey_is_null (J := MiniJson.json) WriteExample.blocking "n" None
           WriteExample.holding 1).
  - intros m e' H. vm_compute in H. inversion H; subst. vm_compute. reflexivity.
  - left. reflexivity.
  - vm_compute. reflexivity.
Defined.

Lemma get_after_reset_witness :
  fst (get (J := MiniJson.json) WriteExample.blocking "n"
         (snd (reset WriteExample.blocking None WriteExample.holding)))
  = Returned MiniJson.JNull.
Proof.
  apply (get_after_reset_is_null (J := MiniJson.json) WriteExample.blocking "n" None
           WriteExample.holding).
  - intros e' H. vm_compute in H. inversion H; subst. vm_compute. reflexivity.
  - left. reflexivity.
  - vm_compute. reflexivity.
Defined.

Lemma del_is_never_sent_witness :
  trace (snd (delKeys (G := Engines.roomy) WriteExample.detached ["n"; "m"] None
                WriteExample.holding))
  = [EvDel ["n"; "m"]]
  /\ delKeys (G := Engines.roomy) WriteExample.detached [] None WriteExample.holding
     = (Returned 0, WriteExample.holding)
  /\ fst (delKeys (G := Engines.tight) WriteExample.detached ["n"; "m"; "o"] None
            WriteExample.holding) = Thrown range_error
  /\ trace (snd (delKeys (G := Engines.tight) WriteExample.detached ["n"; "m"; "o"] None
                   WriteExample.holding)) = [].
Proof.
  destruct (del_is_never_sent_without_keys (G := Engines.roomy) WriteExample.detached)
    as (Hempty & Hkeys & _).
  destruct (del_is_never_sent_without_keys (G := Engines.tight) WriteExample.detached)
    as (_ & _ & Hover & _).
  destruct (Hover ["n"; "m"; "o"] None WriteExample.holding eq_refl) as (Hr & _ & Ht).
  split; [| split; [| split]].
  - apply (Hkeys ["n"; "m"] None WriteExample.holding); [discriminate | reflexivity].
  - apply Hempty.
  - exact Hr.
  - exact Ht.
Defined.

Lemma scan_fails_example :
  ScanFails (MemRedis.redis {| MemRedis.cfg_prefix := Some "app:"; MemRedis.cfg_page := 1;
                               MemRedis.cfg_info := "" |})
    "app:user:*" (env AbortExample.w) "0" [("1", [])] MemRedis.closed
    (snd (MemRedis.served
            (MemRedis.run_scan {| MemRedis.cfg_prefix := Some "app:";
                                  MemRedis.cfg_page := 1; MemRedis.cfg_info := "" |}
               "0" "app:user:*" 100)
            (env AbortExample.w))).
Proof.
  eapply ScanFails_later; [vm_compute; reflexivity | discriminate |].
  eapply ScanFails_now. vm_compute. reflexivity.
Qed.

Lemma failed_scan_witness :
  fst (getKeysByPattern AbortExample.svc 5 "user:*" AbortExample.w)
  = Thrown MemRedis.closed
  /\ fst (delPattern (G := Engines.roomy) AbortExample.svc 5 "user:*" AbortExample.w)
     = Thrown MemRedis.closed
  /\ trace (snd (delPattern (G := Engines.roomy) AbortExample.svc 5 "user:*" AbortExample.w))
     = [EvScan "1" "app:user:*" 100; EvScan "0" "app:user:*" 100].
Proof.
  destruct (failed_scan_deletes_nothing (G := Engines.roomy) AbortExample.svc 5 "user:*" [("1", [])]
              MemRedis.closed _ AbortExample.w scan_fails_example)
    as (Hget & Hdel & _ & Htrace); [simpl; lia |].
  split; [exact Hget | split; [exact Hdel | exact Htrace]].
Defined.

Lemma bare_keys_witness :
  fst (getKeysByPattern ScanExample.blocking 3 "user:*" ScanExample.w)
  = Returned ["user:1"; "user:2"].
Proof.
  apply (getKeysByPattern_returns_bare_keys ScanExample.blocking 3 "user:*"
           [("1", []); ("2", ["user:1"]); ("0", ["user:2"])]
           (env ScanExample.w) ScanExample.w scans_users).
  simpl. lia.
Defined.

Lemma sweeps_example :
  exists w',
    Sweeps (G := Engines.roomy) SumExample.svc 5 ["a:*"; "b:*"]
      (delPatterns_entry SumExample.svc ["a:*"; "b:*"] SumExample.w) [2; 1] w'.
Proof.
  eexists.
  eapply Sweeps_cons; [vm_compute; reflexivity |].
  eapply Sweeps_cons; [vm_compute; reflexivity |].
  apply Sweeps_nil.
Qed.

Lemma delPatterns_sum_witness :
  fst (delPatterns (G := Engines.roomy) SumExample.svc 5 ["a:*"; "b:*"] SumExample.w) = Returned 3.
Proof.
  destruct sweeps_example as [w' Hsweeps].
  exact (proj1 (delPatterns_returns_the_sum (G := Engines.roomy) SumExample.svc 5
                  ["a:*"; "b:*"] SumExample.w
                  [2; 1] w' Hsweeps)).
Defined.

Lemma getStats_meaning_witness :
  status (client StatsExample.svc) (env ReadExample.w) = "ready"
  /\ exists msg,
       {| connected := false; keyCount := 0; memoryUsed := None; memoryPeak := None;
          memoryFragmentationRatio := None; error := Some "Redis not connected" |}
       = failed_snapshot msg.
Proof.
  split.
  - refine (proj1 (proj1 (getStats_connected_means_answered StatsExample.svc ReadExample.w
                            {| connected := true; keyCount := 2; memoryUsed := None;
                               memoryPeak := None; memoryFragmentationRatio := None;
                               error := None |} _) eq_refl)).
    vm_compute. reflexivity.
  - refine (proj2 (getStats_connected_means_answered StatsExample.svc StatsExample.w_down
                     (failed_snapshot "Redis not connected") _) eq_refl).
    vm_compute. reflexivity.
Defined.

Lemma parseMemoryInfo_absent_witness :
  ~ exists pre c rest,
      "used_memory:1024" = pre +:+ "used_memory_human" +:+ ":" +:+ String c rest
      /\ JsString.is_line_terminator c = false.
Proof.
  apply (proj1 (proj1 (parseMemoryInfo_absent_iff "used_memory:1024" "used_memory_human"
                         eq_refl))).
  vm_compute. reflexivity.
Defined.

Lemma module_wiring_witness :
  RedisCacheModule.providers
    (RedisCacheModule.forRootAsync
       {| RedisCacheModule.imports := None;
          RedisCacheModule.useExisting := None;
          RedisCacheModule.useClass := Some "ConfigService";
          RedisCacheModule.useFactory := Some "factory";
          RedisCacheModule.inject := Some ["ConfigService"];
          RedisCacheModule.isGlobal := None |}
     : RedisCacheModule.DynamicModule string string string string)
  = [RedisCacheModule.OptionsFactoryProvider (RedisCacheModule.UserFactory "factory")
       [RedisCacheModule.DepToken "ConfigService"];
     RedisCacheModule.Service].
Proof.
  destruct (module_provides_options_once
              {| RedisCacheModule.root_options :=
                   {| mo_ttl := None; mo_fireAndForget := None; mo_debug := None |};
                 RedisCacheModule.root_isGlobal := None |}
              {| RedisCacheModule.imports := (None : option (list string));
                 RedisCacheModule.useExisting := (None : option string);
                 RedisCacheModule.useClass := Some "ConfigService";
                 RedisCacheModule.useFactory := Some "factory";
                 RedisCacheModule.inject := Some ["ConfigService"];
                 RedisCacheModule.isGlobal := None |})
    as (_ & _ & _ & _ & _ & _ & _ & Hfactory & _).
  exact (Hfactory "factory" eq_refl).
Defined.

Lemma thrown_errors_witness :
  exists msg l,
    logs (snd (set (J := MiniJson.json) WriteExample.blocking "n" (MiniJson.JNum 7) None None
                 WriteExample.replica))
    = error_line msg MemRedis.read_only :: l.
Proof.
  destruct (thrown_errors_are_logged (J := MiniJson.json) (G := Engines.roomy) WriteExample.blocking
              WriteExample.replica MemRedis.read_only) as (_ & Hset & _).
  apply Hset. vm_compute. reflexivity.
Defined.

Lemma fire_and_forget_witness :
  fst (delKey WriteExample.blocking "n" (Some {| opt_fireAndForget := Some true |})
         WriteExample.replica) = Returned 0
  /\ fst (set (J := MiniJson.json) WriteExample.detached "n" (MiniJson.JNum 7) None None
            WriteExample.replica) = Returned tt
  /\ fst (delPattern (G := Engines.roomy) ScanExample.detached 1 "user:*"
            StatsExample.w_down)
     = Thrown MemRedis.closed
  /\ fst (delKeys (G := Engines.roomy) WriteExample.detached ["n"; "m"; "o"] None
            WriteExample.replica) = Returned 0
  /\ fst (delKeys (G := Engines.tight) WriteExample.detached ["n"; "m"; "o"] None
            WriteExample.replica) = Thrown range_error.
Proof.
  destruct (fire_and_forget_does_not_throw_store_errors (J := MiniJson.json)
              (G := Engines.roomy)
              WriteExample.blocking (Some {| opt_fireAndForget := Some true |})
              WriteExample.replica eq_refl) as (Hdel & _).
  destruct (fire_and_forget_does_not_throw_store_errors (J := MiniJson.json)
              (G := Engines.roomy)
              WriteExample.detached None WriteExample.replica eq_refl)
    as (_ & Hkeys & _ & _ & Hset & _).
  destruct (fire_and_forget_does_not_throw_store_errors (J := MiniJson.json)
              (G := Engines.tight)
              WriteExample.detached None WriteExample.replica eq_refl)
    as (_ & _ & Hover & _).
  destruct (fire_and_forget_does_not_throw_store_errors (J := MiniJson.json)
              (G := Engines.roomy)
              ScanExample.detached None StatsExample.w_down eq_refl)
    as (_ & _ & _ & _ & _ & Hscan).
  split; [apply Hdel | split; [apply (Hset "n" (MiniJson.JNum 7) None "7" eq_refl) |]].
  split; [| split].
  - apply (Hscan 0%nat "user:*" MemRedis.closed (env StatsExample.w_down) eq_refl).
    vm_compute. reflexivity.
  - apply Hkeys. reflexivity.
  - apply Hover. reflexivity.
Defined.
